(** * Task Manager backend: identity, access and ownership-scoped tasks

    A shallow embedding of the Express/Mongoose server: the [auth]
    middleware, the [/auth] routes (register, login, profile), the [/tasks]
    routes (list, create, update, delete), the two Mongoose models and the
    process start-up, followed by the properties established about them.

    Conventions.
    - [process.env] is a finite map from names to strings.
    - A Mongoose collection is the list of its documents, in insertion
      order; the document store guarantees that [_id]s are unique.
    - [Date.now()] is an integer number of milliseconds, passed explicitly.
    - Everything the handlers obtain from the outside (fresh ObjectIds,
      bcrypt salts, the outcome of the express-validator chains) is an
      explicit argument.
    - An ObjectId is the string that spells it; identifiers that do not
      cast to an ObjectId are not considered.
    - Strings are sequences of ASCII characters: lower-casing, trimming and
      caseless matching are the ASCII ones.
    - A handler either answers with a status and a JSON body or lets an
      exception escape ([Throw]). *)

From Stdlib Require Import ZArith String Ascii List Lia Permutation.
From stdpp Require Import base decidable option list strings countable numbers gmap sorting.

Local Open Scope string_scope.
Local Open Scope Z_scope.

(* ===================================================================== *)
(** * JavaScript values used by the handlers *)
(* ===================================================================== *)

Module JS.

(** Truthiness of a string: every string but the empty one. *)
Definition truthy (s : string) : bool :=
  match s with EmptyString => false | String _ _ => true end.

(** [x || ''] for an [x] that is a string or [undefined]. *)
Definition or_empty (x : option string) : string :=
  match x with
  | Some s => if truthy s then s else ""
  | None => ""
  end.

(** Truthiness of a value that is a string or [undefined]. *)
Definition truthy_opt (x : option string) : bool :=
  match x with Some s => truthy s | None => false end.

(** [s.startsWith(p)] *)
Definition startsWith (s p : string) : bool := String.prefix p s.

(** [s.slice(n)] for a non-negative [n]. *)
Fixpoint slice (n : nat) (s : string) : string :=
  match n, s with
  | O, _ => s
  | S _, EmptyString => EmptyString
  | S n', String _ s' => slice n' s'
  end.

(** Lower-casing of one character and of a string, for ASCII strings:
    the letters A to Z are mapped, every other character is kept. *)
Definition lower_ascii (c : ascii) : ascii :=
  let n := nat_of_ascii c in
  if (Nat.leb 65 n && Nat.leb n 90)%bool then ascii_of_nat (n + 32) else c.

Fixpoint toLowerCase (s : string) : string :=
  match s with
  | EmptyString => EmptyString
  | String c s' => String (lower_ascii c) (toLowerCase s')
  end.

(** White space removed by [trim] from an ASCII string: space, tab, LF,
    VT, FF, CR. *)
Definition is_space (c : ascii) : bool :=
  let n := nat_of_ascii c in
  (Nat.eqb n 32 || (Nat.leb 9 n && Nat.leb n 13))%bool.

Fixpoint trimStart (s : string) : string :=
  match s with
  | EmptyString => EmptyString
  | String c s' => if is_space c then trimStart s' else s
  end.

(** [trimEnd] keeps a character when it is not a space or when something
    is kept after it. *)
Fixpoint trimEnd (s : string) : string :=
  match s with
  | EmptyString => EmptyString
  | String c s' =>
      match trimEnd s' with
      | EmptyString => if is_space c then EmptyString else String c EmptyString
      | r => String c r
      end
  end.

Definition trim (s : string) : string := trimEnd (trimStart s).

End JS.

(* ===================================================================== *)
(** * JSON bodies and HTTP outcomes *)
(* ===================================================================== *)

#[warnings="-register-all"]
Inductive json : Type :=
  | JBool (b : bool)
  | JStr (s : string)
  | JDate (ms : Z)
  | JArr (items : list json)
  | JObj (fields : list (string * json)).

(** The keys of a JSON object, in order. *)
Definition keys (j : json) : list string :=
  match j with
  | JObj fields => map fst fields
  | _ => []
  end.

Record Response : Type := mkResponse { status : Z; body : json }.

(** [res.status(code).json({ message })] *)
Definition message (code : Z) (msg : string) : Response :=
  mkResponse code (JObj [("message", JStr msg)]).

(** [res.status(400).json({ errors: errors.array() })] *)
Definition validation_failed (errors : list string) : Response :=
  mkResponse 400 (JObj [("errors", JArr (map JStr errors))]).

(** What a route handler does with a request. *)
Inductive Outcome : Type :=
  | Respond (r : Response)
  | Throw (err : string).

(** [process.env] *)
Abbreviation Env := (gmap string string).

(* ===================================================================== *)
(** * The bcrypt library *)
(* ===================================================================== *)

(** [bcrypt.hash(data, salt)] and [bcrypt.compare(candidate, stored)]; the
    salt returned by [bcrypt.genSalt(10)] is random and is an argument of
    the operations that draw one. *)
Class Bcrypt : Type := {
  bcrypt_hash : string -> string -> string;
  bcrypt_compare : string -> string -> bool
}.

(** The contract of the library the server relies on: a password compares
    successfully against each of its own hashes, and, hashing being
    one-way, no string is its own hash. *)
Definition bcrypt_contract `{Bcrypt} : Prop :=
  (forall p salt, bcrypt_compare p (bcrypt_hash p salt) = true) /\
  (forall p salt, bcrypt_hash p salt <> p).

(* ===================================================================== *)
(** * The jsonwebtoken library *)
(* ===================================================================== *)

Module Jwt.

(** The payload of a token; [iat] and [exp] are in seconds. *)
Record Payload : Type := mkPayload {
  id : string;
  iat : Z;
  exp : option Z
}.

(** A signed token, with its signature kept symbolic: the key it was
    signed with. *)
Record Signed : Type := mkSigned {
  payload : Payload;
  key : string
}.

(** The compact serialisation of a signed token and its parser. *)
Class Codec : Type := {
  encode : Signed -> string;
  decode : string -> option Signed
}.

(** Serialised tokens parse back to themselves and are not empty. *)
Definition codec_contract `{Codec} : Prop :=
  (forall t, decode (encode t) = Some t) /\
  (forall t, encode t <> "").

(** The library's clock: [Math.floor(Date.now() / 1000)]. *)
Definition clock (now : Z) : Z := now / 1000.

(** Seconds in ['24h']. *)
Definition expiresIn_24h : Z := 86400.

(** [jwt.sign({ id }, secret, { expiresIn: '24h' })]; the library throws
    when the secret has no value. *)
Definition sign `{Codec} (uid secret : string) (now : Z) : option string :=
  if JS.truthy secret then
    Some (encode
            (mkSigned (mkPayload uid (clock now) (Some (clock now + expiresIn_24h)))
                      secret))
  else None.

(** [jwt.verify(token, secret)]: throws (here [None]) on a malformed
    token, on a signature made with another key, and on a token whose
    [exp] has been reached. *)
Definition verify `{Codec} (token secret : string) (now : Z) : option Payload :=
  match decode token with
  | None => None
  | Some t =>
      if bool_decide (key t = secret) then
        match exp (payload t) with
        | Some e => if clock now >=? e then None else Some (payload t)
        | None => Some (payload t)
        end
      else None
  end.

End Jwt.

(* ===================================================================== *)
(** * middleware/auth *)
(* ===================================================================== *)

Module Auth.

(** Calls made to the token library while a request is processed. *)
Inductive Event : Type :=
  | VerifyCalled (token secret : string).

(** What the middleware does: answer itself, or set [req.user] and call
    [next()]. *)
Inductive Decision : Type :=
  | Reply (r : Response)
  | Next (user_id : string).

(** The token read from [req.headers.authorization]:
    [header.startsWith('Bearer ') ? header.slice(7) : ''] for
    [header = req.headers.authorization || '']. *)
Definition bearer (authorization : option string) : string :=
  let header := JS.or_empty authorization in
  if JS.startsWith header "Bearer " then JS.slice 7 header else "".

(** [auth(req, res, next)], on the value of [req.headers.authorization]. *)
Definition auth `{Jwt.Codec} (env : Env) (now : Z) (authorization : option string)
  : Decision * list Event :=
  let token := bearer authorization in
  if negb (JS.truthy token) then (Reply (message 401 "Unauthorized"), [])
  else
    let secret := JS.or_empty (env !! "JWT_SECRET") in
    if negb (JS.truthy secret) then (Reply (message 500 "Server config error"), [])
    else
      match Jwt.verify token secret now with
      | Some payload => (Next (Jwt.id payload), [VerifyCalled token secret])
      | None => (Reply (message 401 "Unauthorized"), [VerifyCalled token secret])
      end.

(** A route mounted behind [auth]: the handler runs only after
    [next()], with [req.user.id]. *)
Definition guarded `{Jwt.Codec} {A : Type} (env : Env) (now : Z)
    (authorization : option string) (reply : Response -> A)
    (handler : string -> A) : A :=
  match fst (auth env now authorization) with
  | Reply r => reply r
  | Next user_id => handler user_id
  end.

End Auth.

(* ===================================================================== *)
(** * Results of document-store commands *)
(* ===================================================================== *)

(** A command of the document store either returns or rejects. *)
Inductive result (A : Type) : Type :=
  | Ok (a : A)
  | Rejected (err : string).
Arguments Ok {A} a.
Arguments Rejected {A} err.

(* ===================================================================== *)
(** * models/User *)
(* ===================================================================== *)

Module User.

Record Document : Type := mk {
  _id : string;
  username : string;
  email : string;
  password : string;
  createdAt : Z
}.

(** Schema setters: [trim] on [username]; [lowercase] and [trim] on
    [email]. Mongoose runs them on documents, on query filters and on
    updates. *)
Definition set_username (s : string) : string := JS.trim s.
Definition set_email (s : string) : string := JS.trim (JS.toLowerCase s).

(** Schema validators: [required] on the three strings, [minlength: 3]
    on [username] and [minlength: 6] on [password]; the length of an ASCII
    string is its number of characters. *)
Definition valid (u : Document) : bool :=
  (Nat.leb 3 (String.length (username u))
   && JS.truthy (email u)
   && Nat.leb 6 (String.length (password u)))%bool.

(** [UserSchema.pre('save')], on the list of modified paths of the
    document being saved and the salt [bcrypt.genSalt(10)] would draw. *)
Definition pre_save `{Bcrypt} (modified : list string) (salt : string)
    (user : Document) : Document :=
  if negb (bool_decide ("password" ∈ modified)) then user
  else mk (_id user) (username user) (email user)
          (bcrypt_hash (password user) salt) (createdAt user).

(** [user.comparePassword(candidate)] *)
Definition comparePassword `{Bcrypt} (user : Document) (candidate : string) : bool :=
  bcrypt_compare candidate (password user).

(** The two [unique: true] indexes: does [u] collide with a stored
    document other than the one named [self]? *)
Definition collides (users : list Document) (self : string) (u : Document) : bool :=
  existsb (fun v => (negb (bool_decide (_id v = self))
                     && (bool_decide (username v = username u)
                         || bool_decide (email v = email u)))%bool) users.

(** [User.create({ username, email, password })]: setters, defaults,
    validation, the [pre('save')] hook of a new document (every path it
    was built with is modified), then the insertion. *)
Definition create `{Bcrypt} (users : list Document) (fresh : string) (now : Z)
    (salt : string) (name mail pass : string)
  : result (Document * list Document) :=
  let doc := mk fresh (set_username name) (set_email mail) pass now in
  if negb (valid doc) then Rejected "ValidationError"
  else
    let saved := pre_save ["username"; "email"; "password"] salt doc in
    if (collides users fresh saved
        || existsb (fun v => bool_decide (_id v = fresh)) users)%bool
    then Rejected "E11000 duplicate key error"
    else Ok (saved, (users ++ [saved])%list).

(** [User.findOne({ $or: [{ email }, { username }] })] *)
Definition findOne_email_or_username (users : list Document)
    (mail name : string) : option Document :=
  List.find (fun u => (bool_decide (email u = set_email mail)
                       || bool_decide (username u = set_username name))%bool)
            users.

(** [User.findOne({ email })] *)
Definition findOne_email (users : list Document) (mail : string) : option Document :=
  List.find (fun u => bool_decide (email u = set_email mail)) users.

(** [User.findById(id)] *)
Definition findById (users : list Document) (id : string) : option Document :=
  List.find (fun u => bool_decide (_id u = id)) users.

(** The fields [PUT /profile] may set. *)
Record Updates : Type := mkUpdates {
  set_username_to : option string;
  set_email_to : option string
}.

Definition apply_updates (upd : Updates) (u : Document) : Document :=
  mk (_id u)
     (from_option set_username (username u) (set_username_to upd))
     (from_option set_email (email u) (set_email_to upd))
     (password u)
     (createdAt u).

(** Replace the first document whose [_id] is [id]. *)
Fixpoint replace (users : list Document) (id : string) (u' : Document)
  : list Document :=
  match users with
  | [] => []
  | u :: rest =>
      if bool_decide (_id u = id) then u' :: rest else u :: replace rest id u'
  end.

(** [User.findByIdAndUpdate(id, updates, { new: true })]: no save hook
    and no validator runs; the unique indexes still apply. *)
Definition findByIdAndUpdate (users : list Document) (id : string) (upd : Updates)
  : result (option Document * list Document) :=
  match findById users id with
  | None => Ok (None, users)
  | Some u =>
      let u' := apply_updates upd u in
      if collides users id u' then Rejected "E11000 duplicate key error"
      else Ok (Some u', replace users id u')
  end.

End User.

(* ===================================================================== *)
(** * The store's [$regex] operator *)
(* ===================================================================== *)

(** The fragment of the store's regular expressions that is spelled out:
    patterns made of literal characters and of the wildcard [.], matched
    without regard to case (option ['i']) anywhere in the subject. A
    pattern that uses any other metacharacter is outside the fragment
    ([parse] answers [None]) and is left to the store's engine, an
    [Engine]. Strings are sequences of ASCII characters. *)
Module Regex.

Inductive atom : Type :=
  | Lit (c : ascii)
  | AnyChar.

Fixpoint mem (c : ascii) (s : string) : bool :=
  match s with
  | EmptyString => false
  | String d s' => (Ascii.eqb c d || mem c s')%bool
  end.

Definition metachars : string := "\^$.|?*+()[]{}".

Definition is_meta (c : ascii) : bool := mem c metachars.

Fixpoint parse (pattern : string) : option (list atom) :=
  match pattern with
  | EmptyString => Some []
  | String c rest =>
      if Ascii.eqb c "." then cons AnyChar <$> parse rest
      else if is_meta c then None
      else cons (Lit c) <$> parse rest
  end.

Definition newline : ascii := ascii_of_nat 10.

(** One atom against one character, caselessly. *)
Definition atom_matches (a : atom) (c : ascii) : bool :=
  match a with
  | Lit l => Ascii.eqb (JS.lower_ascii l) (JS.lower_ascii c)
  | AnyChar => negb (Ascii.eqb c newline)
  end.

(** The atoms against a prefix of the subject. *)
Fixpoint match_here (p : list atom) (s : string) : bool :=
  match p, s with
  | [], _ => true
  | _ :: _, EmptyString => false
  | a :: p', String c s' => (atom_matches a c && match_here p' s')%bool
  end.

(** The atoms against the subject at some position. *)
Fixpoint search (p : list atom) (s : string) : bool :=
  (match_here p s
   || match s with
      | EmptyString => false
      | String _ s' => search p s'
      end)%bool.

(** Patterns beyond the fragment: the test the store's engine compiles
    them to, or nothing when it rejects them. *)
Class Engine : Type := {
  beyond : string -> option (string -> bool)
}.

(** The test a pattern stands for. *)
Definition compile `{Engine} (pattern : string) : option (string -> bool) :=
  match parse pattern with
  | Some atoms => Some (search atoms)
  | None => beyond pattern
  end.

(** A pattern without metacharacter. *)
Definition literal (pattern : string) : Prop :=
  forall c, mem c pattern = true -> is_meta c = false.

End Regex.

(* ===================================================================== *)
(** * models/Task *)
(* ===================================================================== *)

Module Task.

Record Document : Type := mk {
  _id : string;
  title : string;
  description : string;
  status : string;
  priority : string;
  userId : string;
  createdAt : Z;
  updatedAt : Z
}.

Definition statuses : list string := ["todo"; "in-progress"; "completed"].
Definition priorities : list string := ["low"; "medium"; "high"].

(** Schema setter: [trim] on [title]. *)
Definition set_title (s : string) : string := JS.trim s.

(** Schema validators: [required] on [title], the two [enum]s. *)
Definition valid (t : Document) : bool :=
  (JS.truthy (title t)
   && bool_decide (status t ∈ statuses)
   && bool_decide (priority t ∈ priorities))%bool.

(** [Task.create({ title, description, status, priority, userId })] with
    [timestamps: true]: setters, schema defaults for what is
    [undefined], validation, insertion. *)
Definition create (tasks : list Document) (fresh : string) (now : Z)
    (title0 : string) (description0 status0 priority0 : option string)
    (owner : string) : result (Document * list Document) :=
  let doc := mk fresh (set_title title0)
                (default "" description0)
                (default "todo" status0)
                (default "medium" priority0)
                owner now now in
  if negb (valid doc) then Rejected "ValidationError"
  else if existsb (fun t => bool_decide (_id t = fresh)) tasks
  then Rejected "E11000 duplicate key error"
  else Ok (doc, (tasks ++ [doc])%list).

(** A query under construction: the equality conditions, the optional
    caseless regular expression on [title], the sort on [createdAt]. *)
Record Query : Type := mkQuery {
  where_userId : string;
  where_status : option string;
  where_priority : option string;
  where_title_regex : option string;
  sort_createdAt_desc : bool
}.

Definition holds_eq (expected : option string) (actual : string) : bool :=
  match expected with
  | Some v => bool_decide (actual = v)
  | None => true
  end.

(** The conditions of a query on one document, for the test its
    regular expression stands for. *)
Definition selects (q : Query) (title_test : string -> bool) (t : Document) : bool :=
  (bool_decide (userId t = where_userId q)
   && holds_eq (where_status q) (status t)
   && holds_eq (where_priority q) (priority t)
   && title_test (title t))%bool.

(** Most recent first. *)
Definition newer_first (a b : Document) : Prop := createdAt b <= createdAt a.

#[global] Instance newer_first_dec : RelDecision newer_first :=
  fun a b => Z_le_dec (createdAt b) (createdAt a).

(** The test on [title] of a query; nothing when the store rejects its
    regular expression. *)
Definition title_test `{Regex.Engine} (q : Query) : option (string -> bool) :=
  match where_title_regex q with
  | Some pattern => Regex.compile pattern
  | None => Some (fun _ => true)
  end.

(** [query.exec()] *)
Definition exec `{Regex.Engine} (tasks : list Document) (q : Query)
  : result (list Document) :=
  match title_test q with
  | None => Rejected "Regular expression is invalid"
  | Some test =>
      let found := List.filter (selects q test) tasks in
      Ok (if sort_createdAt_desc q then merge_sort newer_first found else found)
  end.

(** The fields [PUT /:id] may set. *)
Record Updates : Type := mkUpdates {
  set_title_to : option string;
  set_description_to : option string;
  set_status_to : option string;
  set_priority_to : option string
}.

(** The update the store performs on the selected document: the
    supplied fields (through the schema setters), and [updatedAt], which
    [timestamps: true] adds to every update. No validator runs. *)
Definition apply_updates (upd : Updates) (now : Z) (t : Document) : Document :=
  mk (_id t)
     (from_option set_title (title t) (set_title_to upd))
     (default (description t) (set_description_to upd))
     (default (status t) (set_status_to upd))
     (default (priority t) (set_priority_to upd))
     (userId t)
     (createdAt t)
     now.

Definition targets (id owner : string) (t : Document) : bool :=
  (bool_decide (_id t = id) && bool_decide (userId t = owner))%bool.

(** [Task.findOneAndUpdate({ _id: id, userId }, updates, { new: true })]:
    the updated document, if one matched, and the collection afterwards. *)
Fixpoint findOneAndUpdate (tasks : list Document) (id owner : string)
    (upd : Updates) (now : Z) : option Document * list Document :=
  match tasks with
  | [] => (None, [])
  | t :: rest =>
      if targets id owner t then
        let t' := apply_updates upd now t in (Some t', t' :: rest)
      else
        let '(found, rest') := findOneAndUpdate rest id owner upd now in
        (found, t :: rest')
  end.

(** [Task.findOneAndDelete({ _id: id, userId })]: the removed document,
    if one matched, and the collection afterwards. *)
Fixpoint findOneAndDelete (tasks : list Document) (id owner : string)
  : option Document * list Document :=
  match tasks with
  | [] => (None, [])
  | t :: rest =>
      if targets id owner t then (Some t, rest)
      else
        let '(found, rest') := findOneAndDelete rest id owner in
        (found, t :: rest')
  end.

End Task.

(* ===================================================================== *)
(** * routes/auth *)
(* ===================================================================== *)

Module AuthRoutes.

(** [{ id, username, email, createdAt }] *)
Definition public_user (u : User.Document) : json :=
  JObj [("id", JStr (User._id u));
        ("username", JStr (User.username u));
        ("email", JStr (User.email u));
        ("createdAt", JDate (User.createdAt u))].

(** [POST /register] *)
Definition register `{Bcrypt} (users : list User.Document) (fresh : string)
    (now : Z) (salt : string) (errors : list string)
    (username email password : string) : Outcome * list User.Document :=
  match errors with
  | _ :: _ => (Respond (validation_failed errors), users)
  | [] =>
      match User.findOne_email_or_username users email username with
      | Some _ => (Respond (message 409 "User already exists"), users)
      | None =>
          match User.create users fresh now salt username email password with
          | Ok (user, users') => (Respond (mkResponse 201 (public_user user)), users')
          | Rejected err => (Throw err, users)
          end
      end
  end.

(** [POST /login] *)
Definition login `{Bcrypt} `{Jwt.Codec} (env : Env) (users : list User.Document)
    (now : Z) (errors : list string) (email password : string) : Outcome :=
  match errors with
  | _ :: _ => Respond (validation_failed errors)
  | [] =>
      match User.findOne_email users email with
      | None => Respond (message 401 "Invalid credentials")
      | Some user =>
          if negb (User.comparePassword user password)
          then Respond (message 401 "Invalid credentials")
          else
            let secret := JS.or_empty (env !! "JWT_SECRET") in
            match Jwt.sign (User._id user) secret now with
            | None => Throw "secretOrPrivateKey must have a value"
            | Some token =>
                Respond (mkResponse 200
                  (JObj [("token", JStr token);
                         ("user", JObj [("id", JStr (User._id user));
                                        ("username", JStr (User.username user));
                                        ("email", JStr (User.email user))])]))
            end
      end
  end.

(** [GET /profile], after [auth] *)
Definition get_profile (users : list User.Document) (user_id : string) : Response :=
  match User.findById users user_id with
  | None => message 404 "User not found"
  | Some user => mkResponse 200 (public_user user)
  end.

(** [PUT /profile], after [auth] *)
Definition put_profile (users : list User.Document) (user_id : string)
    (errors : list string) (username email : option string)
  : Outcome * list User.Document :=
  match errors with
  | _ :: _ => (Respond (validation_failed errors), users)
  | [] =>
      let updates :=
        User.mkUpdates (if JS.truthy_opt username then username else None)
                       (if JS.truthy_opt email then email else None) in
      match User.findByIdAndUpdate users user_id updates with
      | Rejected err => (Throw err, users)
      | Ok (None, users') => (Respond (message 404 "User not found"), users')
      | Ok (Some user, users') => (Respond (mkResponse 200 (public_user user)), users')
      end
  end.

End AuthRoutes.

(* ===================================================================== *)
(** * routes/tasks *)
(* ===================================================================== *)

Module TaskRoutes.

(** [{ id, title, description, status, priority, createdAt, updatedAt }] *)
Definition task_json (t : Task.Document) : json :=
  JObj [("id", JStr (Task._id t));
        ("title", JStr (Task.title t));
        ("description", JStr (Task.description t));
        ("status", JStr (Task.status t));
        ("priority", JStr (Task.priority t));
        ("createdAt", JDate (Task.createdAt t));
        ("updatedAt", JDate (Task.updatedAt t))].

(** The query [GET /] builds for [req.user.id] and [req.query]. *)
Definition get_query (user_id : string) (q status priority : option string)
  : Task.Query :=
  Task.mkQuery user_id
    (if JS.truthy_opt status then status else None)
    (if JS.truthy_opt priority then priority else None)
    (if JS.truthy_opt q then q else None)
    true.

(** [GET /], after [auth] *)
Definition get `{Regex.Engine} (tasks : list Task.Document) (user_id : string)
    (errors : list string) (q status priority : option string) : Outcome :=
  match errors with
  | _ :: _ => Respond (validation_failed errors)
  | [] =>
      match Task.exec tasks (get_query user_id q status priority) with
      | Ok found => Respond (mkResponse 200 (JArr (map task_json found)))
      | Rejected err => Throw err
      end
  end.

(** [POST /], after [auth] *)
Definition post (tasks : list Task.Document) (fresh : string) (now : Z)
    (user_id : string) (errors : list string) (title : string)
    (description status priority : option string) : Outcome * list Task.Document :=
  match errors with
  | _ :: _ => (Respond (validation_failed errors), tasks)
  | [] =>
      match Task.create tasks fresh now title description status priority user_id with
      | Ok (task, tasks') => (Respond (mkResponse 201 (task_json task)), tasks')
      | Rejected err => (Throw err, tasks)
      end
  end.

(** The part of [req.body] that [PUT /:id] reads; [None] is
    [undefined]. *)
Record Body : Type := mkBody {
  title : option string;
  description : option string;
  status : option string;
  priority : option string
}.

(** [PUT /:id], after [auth] *)
Definition put (tasks : list Task.Document) (now : Z) (user_id : string)
    (errors : list string) (id : string) (body : Body)
  : Response * list Task.Document :=
  match errors with
  | _ :: _ => (validation_failed errors, tasks)
  | [] =>
      let updates :=
        Task.mkUpdates (title body) (description body) (status body) (priority body) in
      match Task.findOneAndUpdate tasks id user_id updates now with
      | (None, tasks') => (message 404 "Task not found", tasks')
      | (Some task, tasks') => (mkResponse 200 (task_json task), tasks')
      end
  end.

(** [DELETE /:id], after [auth] *)
Definition remove (tasks : list Task.Document) (user_id : string) (id : string)
  : Response * list Task.Document :=
  match Task.findOneAndDelete tasks id user_id with
  | (None, tasks') => (message 404 "Task not found", tasks')
  | (Some _, tasks') => (mkResponse 200 (JObj [("success", JBool true)]), tasks')
  end.

End TaskRoutes.

(* ===================================================================== *)
(** * The task routes as mounted: [auth] first *)
(* ===================================================================== *)

Module Router.

(** [router.get('/', auth, taskQueryValidator, ...)] *)
Definition tasks_get `{Jwt.Codec} `{Regex.Engine} (env : Env) (now : Z)
    (authorization : option string) (tasks : list Task.Document)
    (errors : list string) (q status priority : option string) : Outcome :=
  Auth.guarded env now authorization Respond
    (fun user_id => TaskRoutes.get tasks user_id errors q status priority).

(** [router.post('/', auth, taskCreateValidator, ...)] *)
Definition tasks_post `{Jwt.Codec} (env : Env) (now : Z)
    (authorization : option string) (tasks : list Task.Document) (fresh : string)
    (errors : list string) (title : string)
    (description status priority : option string) : Outcome * list Task.Document :=
  Auth.guarded env now authorization (fun r => (Respond r, tasks))
    (fun user_id =>
       TaskRoutes.post tasks fresh now user_id errors title description status priority).

(** [router.put('/:id', auth, taskUpdateValidator, ...)] *)
Definition tasks_put `{Jwt.Codec} (env : Env) (now : Z)
    (authorization : option string) (tasks : list Task.Document)
    (errors : list string) (id : string) (body : TaskRoutes.Body)
  : Response * list Task.Document :=
  Auth.guarded env now authorization (fun r => (r, tasks))
    (fun user_id => TaskRoutes.put tasks now user_id errors id body).

(** [router.delete('/:id', auth, ...)] *)
Definition tasks_delete `{Jwt.Codec} (env : Env) (now : Z)
    (authorization : option string) (tasks : list Task.Document) (id : string)
  : Response * list Task.Document :=
  Auth.guarded env now authorization (fun r => (r, tasks))
    (fun user_id => TaskRoutes.remove tasks user_id id).

End Router.

(* ===================================================================== *)
(** * Process start-up *)
(* ===================================================================== *)

Module Server.

(** [connect()]: rejects when [MONGODB_URI] is missing or when the store
    cannot be reached. *)
Definition connect (env : Env) (reachable : bool) : result unit :=
  let uri := JS.or_empty (env !! "MONGODB_URI") in
  if negb (JS.truthy uri) then Rejected "MONGODB_URI missing"
  else if reachable then Ok tt
  else Rejected "MongooseServerSelectionError".

(** [Number(s)] as far as [app.listen] is concerned: the integer that the
    number denotes, and nothing when the number is [NaN], infinite or not
    an integer. *)
Class Numbers : Type := {
  Number : string -> option Z
}.

(** [Number(process.env.PORT || 5000)] *)
Definition port `{Numbers} (env : Env) : option Z :=
  if JS.truthy_opt (env !! "PORT") then Number (JS.or_empty (env !! "PORT"))
  else Some 5000.

(** [app.listen(port)]: throws for a port that is not an integer between 0
    and 65535, and fails when the port cannot be bound. *)
Definition listen (port : option Z) (bindable : bool) : result Z :=
  match port with
  | None => Rejected "ERR_SOCKET_BAD_PORT"
  | Some p =>
      if ((0 <=? p) && (p <=? 65535))%bool then
        if bindable then Ok p else Rejected "EADDRINUSE"
      else Rejected "ERR_SOCKET_BAD_PORT"
  end.

Inductive State : Type :=
  | Listening (port : Z)
  | Crashed (err : string).

(** [connect().then(() => app.listen(port))]: nothing handles a rejection
    of [connect], an exception of [listen] or its error event. *)
Definition start `{Numbers} (env : Env) (reachable bindable : bool) : State :=
  match connect env reachable with
  | Ok _ =>
      match listen (port env) bindable with
      | Ok p => Listening p
      | Rejected err => Crashed err
      end
  | Rejected err => Crashed err
  end.

End Server.

(* ===================================================================== *)
(** * Notions used in the statements *)
(* ===================================================================== *)

(** The authorization header is [Bearer <token>] for a non-empty token. *)
Definition carries_bearer (authorization : option string) (token : string) : Prop :=
  token <> "" /\ authorization = Some ("Bearer " ++ token)%string.

(** The signing secret is absent from the configuration: [JWT_SECRET] is
    unset or empty. *)
Definition secret_absent (env : Env) : Prop :=
  env !! "JWT_SECRET" = None \/ env !! "JWT_SECRET" = Some "".

(** [needle] occurs in [subject] when case is ignored. *)
Definition contains_ci (needle subject : string) : Prop :=
  exists before after : string,
    JS.toLowerCase subject = (before ++ JS.toLowerCase needle ++ after)%string.

(** The atoms of a pattern that has no metacharacter. *)
Fixpoint lits (pattern : string) : list Regex.atom :=
  match pattern with
  | EmptyString => []
  | String c rest => Regex.Lit c :: lits rest
  end.

(** A filter of the list request that is supplied and not empty requires
    the field to be equal to it. *)
Definition meets (wanted : option string) (actual : string) : Prop :=
  forall v, wanted = Some v -> v <> "" -> actual = v.

(** The collection without the documents whose [_id] is [id]. *)
Definition without (id : string) (tasks : list Task.Document) : list Task.Document :=
  List.filter (fun t => negb (bool_decide (Task._id t = id))) tasks.

(** The string holds ASCII characters only. On such strings the
    operations of [JS] and [String.length] are those of JavaScript. *)
Fixpoint all_ascii (s : string) : bool :=
  match s with
  | EmptyString => true
  | String c rest => (Nat.ltb (nat_of_ascii c) 128 && all_ascii rest)%bool
  end.

(** The unique indexes of the user collection hold: no two users share an
    [_id], an email or a username. *)
Definition unique_users (users : list User.Document) : Prop :=
  NoDup (map User._id users) /\
  NoDup (map User.email users) /\
  NoDup (map User.username users).

(** Every stored email and username is what the schema setters make of
    it. *)
Definition normalised_users (users : list User.Document) : Prop :=
  forall u, In u users ->
    User.set_email (User.email u) = User.email u /\
    User.set_username (User.username u) = User.username u.

(** Most recent first: no task comes before a task created later. *)
Definition most_recent_first (tasks : list Task.Document) : Prop :=
  StronglySorted (fun a b => Task.createdAt b <= Task.createdAt a) tasks.

(* ===================================================================== *)
(** * Reference instances of the two library interfaces *)
(* ===================================================================== *)

(** Instances that meet [bcrypt_contract] and [Jwt.codec_contract]: they
    show that the contracts can be met, and they let the handlers run on
    concrete requests. *)
Module Reference.

(** A positive number as a string of binary digits, and back. *)
Fixpoint bits (p : positive) : string :=
  match p with
  | xH => EmptyString
  | xO p' => String "0" (bits p')
  | xI p' => String "1" (bits p')
  end.

Fixpoint unbits (s : string) : option positive :=
  match s with
  | EmptyString => Some xH
  | String c s' =>
      if Ascii.eqb c "0" then xO <$> unbits s'
      else if Ascii.eqb c "1" then xI <$> unbits s'
      else None
  end.

Definition to_tuple (t : Jwt.Signed) : string * Z * option Z * string :=
  (Jwt.id (Jwt.payload t), Jwt.iat (Jwt.payload t), Jwt.exp (Jwt.payload t), Jwt.key t).

Definition of_tuple (x : string * Z * option Z * string) : Jwt.Signed :=
  let '(i, a, e, k) := x in Jwt.mkSigned (Jwt.mkPayload i a e) k.

Definition codec : Jwt.Codec := {|
  Jwt.encode t := String "J" (bits (countable.encode (to_tuple t)));
  Jwt.decode s :=
    match s with
    | String "J" rest => of_tuple <$> (unbits rest ≫= countable.decode)
    | _ => None
    end
|}.

(** An engine that knows no pattern beyond the fragment. *)
Definition engine : Regex.Engine := {| Regex.beyond _ := None |}.

(** Unsigned decimal numerals, and nothing else. *)
Fixpoint decimal (acc : Z) (s : string) : option Z :=
  match s with
  | EmptyString => Some acc
  | String c rest =>
      let n := nat_of_ascii c in
      if (Nat.leb 48 n && Nat.leb n 57)%bool
      then decimal (10 * acc + Z.of_nat (n - 48)) rest
      else None
  end.

Definition numbers : Server.Numbers := {| Server.Number := decimal 0 |}.

(** The salt and the data, separated; [compare] reads the data back. *)
Definition bcrypt : Bcrypt := {|
  bcrypt_hash p salt := (p ++ "$" ++ salt)%string;
  bcrypt_compare candidate stored := String.prefix (candidate ++ "$") stored
|}.

End Reference.

(* ===================================================================== *)
(** * Properties *)
(* ===================================================================== *)

(** ** Strings *)

Lemma truthy_true (s : string) : JS.truthy s = true <-> s <> "".
Proof. destruct s; simpl; split; intros; congruence. Qed.

Lemma truthy_false (s : string) : JS.truthy s = false <-> s = "".
Proof. destruct s; simpl; split; intros; congruence. Qed.

Lemma or_empty_None (x : option string) :
  JS.or_empty x = "" <-> x = None \/ x = Some "".
Proof.
  destruct x as [[|c s]|]; simpl; split; intros; auto; try congruence.
  - destruct H as [H|H]; congruence.
Qed.

Lemma append_cons (c : ascii) (s1 s2 : string) :
  (String c s1 ++ s2 = String c (s1 ++ s2))%string.
Proof. reflexivity. Qed.

Lemma startsWith_slice (p s : string) :
  JS.startsWith s p = true -> s = (p ++ JS.slice (String.length p) s)%string.
Proof.
  unfold JS.startsWith. revert s.
  induction p as [|c p IH]; intros s Hp; [reflexivity|].
  destruct s as [|d s]; [discriminate|].
  cbn in Hp |- *.
  destruct (ascii_dec c d) as [->|]; [|discriminate].
  rewrite append_cons. f_equal. now apply IH.
Qed.
Lemma prefix_app (s rest : string) : String.prefix s (s ++ rest) = true.
Proof.
  induction s as [|c s IH]; [now destruct rest|]. rewrite append_cons. cbn.
  destruct (ascii_dec c c); [exact IH|congruence].
Qed.
Lemma string_length_app (s1 s2 : string) :
  String.length (s1 ++ s2) = (String.length s1 + String.length s2)%nat.
Proof. induction s1 as [|c s1 IH]; [reflexivity|]. rewrite append_cons. cbn. now rewrite IH. Qed.
Lemma append_assoc (a b c : string) : (a ++ (b ++ c) = (a ++ b) ++ c)%string.
Proof. induction a as [|x a IH]; [reflexivity|]. rewrite !append_cons. now rewrite IH. Qed.
(** The middleware reads a token exactly from the headers of the form
    [Bearer <token>]. *)
Lemma bearer_of_header (token : string) :
  Auth.bearer (Some ("Bearer " ++ token)%string) = token.
Proof. destruct token; reflexivity. Qed.

Lemma bearer_carried (authorization : option string) :
  Auth.bearer authorization <> "" ->
  authorization = Some ("Bearer " ++ Auth.bearer authorization)%string.
Proof.
  unfold Auth.bearer. intros Hne.
  destruct (JS.startsWith (JS.or_empty authorization) "Bearer ") eqn:Hs; [|congruence].
  apply startsWith_slice in Hs. cbn [String.length] in Hs.
  destruct authorization as [h|]; [|discriminate].
  cbn in Hs, Hne |- *. destruct (JS.truthy h) eqn:Ht.
  - now rewrite <- Hs.
  - discriminate.
Qed.
(** ** The reference instances meet the contracts *)

Lemma unbits_bits (p : positive) : Reference.unbits (Reference.bits p) = Some p.
Proof. induction p as [p IH|p IH|]; simpl; rewrite ?IH; reflexivity. Qed.

Lemma reference_codec_contract : @Jwt.codec_contract Reference.codec.
Proof.
  split.
  - intros [[i a e] k]. cbn. rewrite unbits_bits. cbn.
    rewrite decode_encode. reflexivity.
  - intros t. discriminate.
Qed.
Lemma reference_bcrypt_contract : @bcrypt_contract Reference.bcrypt.
Proof.
  split; intros p salt; cbn.
  - change (String "$" salt) with ("$" ++ salt)%string.
    rewrite append_assoc. apply prefix_app.
  - intros Heq. apply (f_equal String.length) in Heq.
    rewrite !string_length_app in Heq. cbn in Heq. lia.
Qed.

(** ** The token library *)

Section TokenService.

Context `{Jwt.Codec}.
Hypothesis codec_ok : Jwt.codec_contract.

(** A token verifies, under the key it was signed with, to the
    identifier it was issued for, as long as the clock has not reached
    its expiry. *)
Lemma verify_sign_valid (uid secret token : string) (now0 now1 : Z) :
  Jwt.sign uid secret now0 = Some token ->
  Jwt.clock now1 < Jwt.clock now0 + Jwt.expiresIn_24h ->
  Jwt.verify token secret now1
  = Some (Jwt.mkPayload uid (Jwt.clock now0)
                        (Some (Jwt.clock now0 + Jwt.expiresIn_24h))).
Proof.
  unfold Jwt.sign, Jwt.verify. intros Hs Hlt.
  destruct (JS.truthy secret); [|discriminate].
  injection Hs as <-. destruct codec_ok as [Hdec _]. rewrite Hdec. cbn.
  rewrite bool_decide_eq_true_2 by reflexivity.
  destruct (Z.geb_spec (Jwt.clock now1) (Jwt.clock now0 + Jwt.expiresIn_24h)); [lia|].
  reflexivity.
Qed.

(** The same token is refused from its expiry on. *)
Lemma verify_sign_expired (uid secret token : string) (now0 now1 : Z) :
  Jwt.sign uid secret now0 = Some token ->
  Jwt.clock now0 + Jwt.expiresIn_24h <= Jwt.clock now1 ->
  Jwt.verify token secret now1 = None.
Proof.
  unfold Jwt.sign, Jwt.verify. intros Hs Hle.
  destruct (JS.truthy secret); [|discriminate].
  injection Hs as <-. destruct codec_ok as [Hdec _]. rewrite Hdec. cbn.
  rewrite bool_decide_eq_true_2 by reflexivity.
  destruct (Z.geb_spec (Jwt.clock now1) (Jwt.clock now0 + Jwt.expiresIn_24h)); [|lia].
  reflexivity.
Qed.

Lemma sign_nonempty (uid secret token : string) (now : Z) :
  Jwt.sign uid secret now = Some token -> token <> "" /\ secret <> "".
Proof.
  unfold Jwt.sign. destruct (JS.truthy secret) eqn:Ht; [|discriminate].
  intros [= <-]. split; [apply codec_ok|now apply truthy_true].
Qed.

End TokenService.

(** ** The Auth Gate *)

Lemma carries_bearer_token (authorization : option string) (token : string) :
  carries_bearer authorization token -> Auth.bearer authorization = token.
Proof. intros [_ ->]. apply bearer_of_header. Qed.

Lemma bearer_carries (authorization : option string) :
  Auth.bearer authorization <> "" ->
  carries_bearer authorization (Auth.bearer authorization).
Proof. intros Hne. split; [exact Hne|now apply bearer_carried]. Qed.

(** C3. The Auth Gate answers 401 Unauthorized, without calling the token
    library, when the authorization header is not [Bearer <token>]; with a
    token and no signing secret in the configuration it answers with the
    500 server-configuration error, again without calling the library;
    with a token and a secret it calls [verify] once and answers 401 when
    verification fails; and it sets the principal to the token's user
    identifier and continues exactly when verification succeeds. *)
Theorem auth_gate `{Jwt.Codec} (env : Env) (now : Z) (authorization : option string) :
  let secret := JS.or_empty (env !! "JWT_SECRET") in
  ((forall token, ~ carries_bearer authorization token) ->
     Auth.auth env now authorization
     = (Auth.Reply (message 401 "Unauthorized"), [])) /\
  (forall token, carries_bearer authorization token ->
     (secret = "" ->
        Auth.auth env now authorization
        = (Auth.Reply (message 500 "Server config error"), [])) /\
     (secret <> "" -> Jwt.verify token secret now = None ->
        Auth.auth env now authorization
        = (Auth.Reply (message 401 "Unauthorized"), [Auth.VerifyCalled token secret])) /\
     (secret <> "" -> forall payload, Jwt.verify token secret now = Some payload ->
        Auth.auth env now authorization
        = (Auth.Next (Jwt.id payload), [Auth.VerifyCalled token secret]))) /\
  (forall user_id events,
     Auth.auth env now authorization = (Auth.Next user_id, events) ->
     exists token payload,
       carries_bearer authorization token /\ secret <> "" /\
       Jwt.verify token secret now = Some payload /\ user_id = Jwt.id payload).
Proof.
  intros secret. unfold Auth.auth. fold secret. repeat split.
  - intros Hnone. destruct (JS.truthy (Auth.bearer authorization)) eqn:Ht; [|reflexivity].
    apply truthy_true, bearer_carries in Ht. now apply Hnone in Ht.
  - intros Hs. rewrite (carries_bearer_token _ _ H0).
    destruct H0 as [Hne _]. apply truthy_true in Hne. rewrite Hne. cbn.
    apply truthy_false in Hs. now rewrite Hs.
  - intros Hs Hv. rewrite (carries_bearer_token _ _ H0).
    destruct H0 as [Hne _]. apply truthy_true in Hne. rewrite Hne. cbn.
    apply truthy_true in Hs. rewrite Hs. cbn. now rewrite Hv.
  - intros Hs payload Hv. rewrite (carries_bearer_token _ _ H0).
    destruct H0 as [Hne _]. apply truthy_true in Hne. rewrite Hne. cbn.
    apply truthy_true in Hs. rewrite Hs. cbn. now rewrite Hv.
  - intros user_id events.
    destruct (JS.truthy (Auth.bearer authorization)) eqn:Ht; cbn; [|discriminate].
    destruct (JS.truthy secret) eqn:Hs; cbn; [|discriminate].
    destruct (Jwt.verify (Auth.bearer authorization) secret now) as [payload|] eqn:Hv;
      [|discriminate].
    intros [= <- <-]. exists (Auth.bearer authorization), payload.
    apply truthy_true in Ht, Hs. auto using bearer_carries.
Qed.

(** ** Token issue and verification *)

(** With a signing secret, a token is issued for every user identifier;
    on the library's clock (whole seconds) it verifies to exactly that
    identifier as long as fewer than 24 hours have passed since it was
    issued, and verification fails from then on. *)
Lemma issue_then_verify `{Jwt.Codec} (uid secret : string) (now0 : Z) :
  Jwt.codec_contract ->
  secret <> "" ->
  exists token,
    Jwt.sign uid secret now0 = Some token /\
    forall now1,
      (Jwt.clock now1 < Jwt.clock now0 + 24 * 60 * 60 ->
       exists payload,
         Jwt.verify token secret now1 = Some payload /\ Jwt.id payload = uid) /\
      (Jwt.clock now0 + 24 * 60 * 60 <= Jwt.clock now1 ->
       Jwt.verify token secret now1 = None).
Proof.
  intros Hcodec Hsecret.
  destruct (Jwt.sign uid secret now0) as [token|] eqn:Hsign.
  - exists token. split; [reflexivity|]. intros now1.
    change (24 * 60 * 60) with Jwt.expiresIn_24h. split; intros Hclock.
    + eexists. split; [exact (verify_sign_valid Hcodec _ _ _ _ _ Hsign Hclock)|reflexivity].
    + exact (verify_sign_expired Hcodec _ _ _ _ _ Hsign Hclock).
  - unfold Jwt.sign in Hsign. apply truthy_true in Hsecret.
    rewrite Hsecret in Hsign. discriminate.
Qed.

(** X20. In milliseconds: a token is accepted up to 23 h 59 min 59 s
    after [Date.now()] at issue and refused from 24 h on; in between, the
    outcome depends on the fraction of a second that [iat] dropped. *)
Lemma token_window_milliseconds `{Jwt.Codec} (uid secret token : string)
    (now0 now1 : Z) :
  Jwt.codec_contract ->
  Jwt.sign uid secret now0 = Some token ->
  (now1 - now0 <= 86399000 ->
   exists payload, Jwt.verify token secret now1 = Some payload /\ Jwt.id payload = uid) /\
  (86400000 <= now1 - now0 -> Jwt.verify token secret now1 = None).
Proof.
  intros Hcodec Hsign. split; intros Hms.
  - assert (Hclock : Jwt.clock now1 < Jwt.clock now0 + Jwt.expiresIn_24h).
    { unfold Jwt.clock, Jwt.expiresIn_24h.
      assert (Hdiv : now1 / 1000 <= (now0 + 86399 * 1000) / 1000)
        by (apply Z.div_le_mono; lia).
      rewrite Z.div_add in Hdiv by lia. lia. }
    rewrite (verify_sign_valid Hcodec _ _ _ _ _ Hsign Hclock). eauto.
  - apply (verify_sign_expired Hcodec uid _ _ now0 _ Hsign).
    unfold Jwt.clock, Jwt.expiresIn_24h.
    assert (Hdiv : (now0 + 86400 * 1000) / 1000 <= now1 / 1000)
      by (apply Z.div_le_mono; lia).
    rewrite Z.div_add in Hdiv by lia. lia.
Qed.

(** Login issues a token to every user who presents the right password,
    provided the signing secret is configured. *)
Lemma login_issues_token `{Bcrypt} `{Jwt.Codec} (env : Env)
    (users : list User.Document) (now : Z) (email password : string)
    (user : User.Document) :
  JS.or_empty (env !! "JWT_SECRET") <> "" ->
  User.findOne_email users email = Some user ->
  User.comparePassword user password = true ->
  exists token user_json,
    Jwt.sign (User._id user) (JS.or_empty (env !! "JWT_SECRET")) now = Some token /\
    AuthRoutes.login env users now [] email password
    = Respond (mkResponse 200 (JObj [("token", JStr token); ("user", user_json)])).
Proof.
  intros Hsecret Hfind Hpass. unfold AuthRoutes.login, Jwt.sign.
  rewrite Hfind, Hpass. apply truthy_true in Hsecret. rewrite Hsecret. cbn.
  eexists _, _. split; reflexivity.
Qed.

(** The library's whole seconds against [Date.now()] milliseconds. *)
Lemma clock_before (now0 now1 : Z) :
  Jwt.clock now1 < Jwt.clock now0 + Jwt.expiresIn_24h <->
  now1 < 1000 * (now0 / 1000) + 86400000.
Proof.
  unfold Jwt.clock, Jwt.expiresIn_24h. split; intros Hlt.
  - assert (Hle : now1 / 1000 <= now0 / 1000 + 86399) by lia.
    pose proof (Z.mul_div_le now1 1000 ltac:(lia)) as Hlow.
    pose proof (Z.mod_pos_bound now1 1000 ltac:(lia)) as Hmod.
    pose proof (Z.div_mod now1 1000 ltac:(lia)) as Hdm. lia.
  - apply Z.div_lt_upper_bound; lia.
Qed.

(** C4, amended. A token issued by login for a user is resolved by the
    Auth Gate of the same process to exactly that user's identifier while
    the current time, in milliseconds of [Date.now()], is earlier than 24
    hours after the issue time rounded down to the whole second; from that
    instant on its verification fails and the Auth Gate answers 401
    Unauthorized. *)
Theorem token_validity_window `{Bcrypt} `{Jwt.Codec} (env : Env)
    (users : list User.Document) (now0 : Z) (email password token : string)
    (user_json : json) :
  let secret := JS.or_empty (env !! "JWT_SECRET") in
  let authorization := Some ("Bearer " ++ token)%string in
  Jwt.codec_contract ->
  AuthRoutes.login env users now0 [] email password
  = Respond (mkResponse 200 (JObj [("token", JStr token); ("user", user_json)])) ->
  exists user,
    User.findOne_email users email = Some user /\
    forall now1,
      (now1 < 1000 * (now0 / 1000) + 24 * 60 * 60 * 1000 ->
       (exists payload,
          Jwt.verify token secret now1 = Some payload /\
          Jwt.id payload = User._id user) /\
       Auth.auth env now1 authorization
       = (Auth.Next (User._id user), [Auth.VerifyCalled token secret])) /\
      (1000 * (now0 / 1000) + 24 * 60 * 60 * 1000 <= now1 ->
       Jwt.verify token secret now1 = None /\
       Auth.auth env now1 authorization
       = (Auth.Reply (message 401 "Unauthorized"), [Auth.VerifyCalled token secret])).
Proof.
  intros secret authorization Hcodec. unfold AuthRoutes.login. fold secret.
  destruct (User.findOne_email users email) as [user|]; [|discriminate].
  destruct (negb (User.comparePassword user password)); [discriminate|].
  destruct (Jwt.sign (User._id user) secret now0) as [tok|] eqn:Hsign; [|discriminate].
  intros [= <- _]. exists user. split; [reflexivity|]. intros now1.
  destruct (sign_nonempty Hcodec _ _ _ _ Hsign) as [Htok Hsec].
  unfold authorization, Auth.auth. fold secret. rewrite bearer_of_header.
  apply truthy_true in Htok, Hsec. rewrite Htok, Hsec. cbn [negb].
  change (24 * 60 * 60 * 1000) with 86400000. split; intros Hms.
  - apply clock_before in Hms.
    rewrite (verify_sign_valid Hcodec _ _ _ _ _ Hsign Hms). split; [eauto|reflexivity].
  - assert (Hclock : Jwt.clock now0 + Jwt.expiresIn_24h <= Jwt.clock now1).
    { destruct (Z_lt_le_dec (Jwt.clock now1) (Jwt.clock now0 + Jwt.expiresIn_24h))
        as [Hlt|Hle]; [|exact Hle].
      apply clock_before in Hlt. lia. }
    rewrite (verify_sign_expired Hcodec _ _ _ _ _ Hsign Hclock). split; reflexivity.
Qed.

Lemma token_validity_window_witness :
  let env : Env := {[ "JWT_SECRET" := "s3cret" ]} in
  let alice := User.mk "64f0c0ffee" "alice" "alice@x.com" "secret1$salt" 5 in
  let token :=
    @Jwt.encode Reference.codec
      (Jwt.mkSigned (Jwt.mkPayload "64f0c0ffee" 1 (Some 86401)) "s3cret") in
  let secret := JS.or_empty (env !! "JWT_SECRET") in
  let authorization := Some ("Bearer " ++ token)%string in
  exists user,
    User.findOne_email [alice] "alice@x.com" = Some user /\
    forall now1,
      (now1 < 1000 * (1500 / 1000) + 24 * 60 * 60 * 1000 ->
       (exists payload,
          @Jwt.verify Reference.codec token secret now1 = Some payload /\
          Jwt.id payload = User._id user) /\
       @Auth.auth Reference.codec env now1 authorization
       = (Auth.Next (User._id user), [Auth.VerifyCalled token secret])) /\
      (1000 * (1500 / 1000) + 24 * 60 * 60 * 1000 <= now1 ->
       @Jwt.verify Reference.codec token secret now1 = None /\
       @Auth.auth Reference.codec env now1 authorization
       = (Auth.Reply (message 401 "Unauthorized"), [Auth.VerifyCalled token secret])).
Proof.
  intros env alice token secret authorization.
  apply (@token_validity_window Reference.bcrypt Reference.codec env [alice] 1500
           "alice@x.com" "secret1" token
           (JObj [("id", JStr "64f0c0ffee"); ("username", JStr "alice");
                  ("email", JStr "alice@x.com")])).
  - exact reference_codec_contract.
  - vm_compute. reflexivity.
Defined.

(** A token issued 999 ms after a whole second is refused 86 399 001 ms
    later, that is, within 24 hours of its issuance. *)
Lemma token_validity_window_counterexample :
  let env : Env := {[ "JWT_SECRET" := "s3cret" ]} in
  let alice := User.mk "64f0c0ffee" "alice" "alice@x.com" "secret1$salt" 5 in
  let token :=
    @Jwt.encode Reference.codec
      (Jwt.mkSigned (Jwt.mkPayload "64f0c0ffee" 0 (Some 86400)) "s3cret") in
  @AuthRoutes.login Reference.bcrypt Reference.codec env [alice] 999 []
    "alice@x.com" "secret1"
  = Respond (mkResponse 200
      (JObj [("token", JStr token);
             ("user", JObj [("id", JStr "64f0c0ffee"); ("username", JStr "alice");
                            ("email", JStr "alice@x.com")])])) /\
  86400000 - 999 < 24 * 60 * 60 * 1000 /\
  @Jwt.verify Reference.codec token "s3cret" 86400000 = None /\
  fst (@Auth.auth Reference.codec env 86400000 (Some ("Bearer " ++ token)%string))
  = Auth.Reply (message 401 "Unauthorized").
Proof.
  split; [vm_compute; reflexivity|]. split; [lia|].
  split; vm_compute; reflexivity.
Qed.

(** ** Login *)

(** C7. A login attempt for an email with no user record and a login
    attempt with a wrong password for an existing user receive the same
    answer: 401 with the message [Invalid credentials]. *)
Theorem login_failure_uniform `{Bcrypt} `{Jwt.Codec} (env env' : Env)
    (users users' : list User.Document) (now now' : Z)
    (email password email' password' : string) (user : User.Document) :
  User.findOne_email users email = None ->
  User.findOne_email users' email' = Some user ->
  User.comparePassword user password' = false ->
  AuthRoutes.login env users now [] email password
  = Respond (message 401 "Invalid credentials") /\
  AuthRoutes.login env' users' now' [] email' password'
  = AuthRoutes.login env users now [] email password.
Proof.
  intros Hnone Hsome Hwrong. unfold AuthRoutes.login.
  rewrite Hnone, Hsome, Hwrong. split; reflexivity.
Qed.

Lemma login_failure_uniform_witness :
  let alice :=
    User.mk "64f0c0ffee" "alice" "alice@x.com"
            (@bcrypt_hash Reference.bcrypt "secret1" "salt") 0 in
  @AuthRoutes.login Reference.bcrypt Reference.codec ∅ [] 0 [] "bob@x.com" "secret1"
  = Respond (message 401 "Invalid credentials") /\
  @AuthRoutes.login Reference.bcrypt Reference.codec
    {[ "JWT_SECRET" := "s3cret" ]} [alice] 7 [] "alice@x.com" "secret2"
  = @AuthRoutes.login Reference.bcrypt Reference.codec ∅ [] 0 [] "bob@x.com" "secret1".
Proof.
  intros alice.
  apply (@login_failure_uniform Reference.bcrypt Reference.codec
           ∅ {[ "JWT_SECRET" := "s3cret" ]} [] [alice] 0 7
           "bob@x.com" "secret1" "alice@x.com" "secret2" alice).
  - reflexivity.
  - vm_compute. reflexivity.
  - vm_compute. reflexivity.
Defined.

(** ** Registration *)

Lemma find_app_last {A : Type} (f : A -> bool) (l : list A) (x : A) :
  f x = true -> exists y, List.find f (l ++ [x])%list = Some y.
Proof.
  intros Hx. induction l as [|a l IH]; simpl.
  - rewrite Hx. eauto.
  - destruct (f a); eauto.
Qed.

Lemma find_In_Some {A : Type} (f : A -> bool) (l : list A) (x : A) :
  In x l -> f x = true -> exists y, List.find f l = Some y.
Proof.
  intros Hin Hx. destruct (List.find f l) as [y|] eqn:Hf; [eauto|].
  apply (find_none _ _ Hf) in Hin. congruence.
Qed.

(** What a successful registration has done. *)
Lemma register_created `{Bcrypt} (users users' : list User.Document)
    (fresh salt username email password : string) (now : Z) (body : json) :
  AuthRoutes.register users fresh now salt [] username email password
  = (Respond (mkResponse 201 body), users') ->
  let user := User.mk fresh (User.set_username username) (User.set_email email)
                      (bcrypt_hash password salt) now in
  users' = (users ++ [user])%list /\
  body = AuthRoutes.public_user user /\
  User.findOne_email_or_username users email username = None.
Proof.
  unfold AuthRoutes.register.
  destruct (User.findOne_email_or_username users email username); [discriminate|].
  unfold User.create.
  destruct (negb (User.valid _)); [discriminate|].
  destruct (_ || _)%bool; [discriminate|].
  cbn. intros [= <- <-]. auto.
Qed.

Lemma replace_passwords (users : list User.Document) (id : string)
    (upd : User.Updates) (u : User.Document) :
  User.findById users id = Some u ->
  map User.password (User.replace users id (User.apply_updates upd u))
  = map User.password users.
Proof.
  unfold User.findById. induction users as [|v users IH]; simpl; [discriminate|].
  destruct (bool_decide (User._id v = id)).
  - intros [= ->]. reflexivity.
  - intros Hf. simpl. f_equal. now apply IH.
Qed.

(** C2. After a successful registration with password [p], the stored
    password of the new user is the bcrypt hash of [p] under the salt drawn
    for it, it differs from [p], and comparing [p] against the stored record
    succeeds. The save hook leaves a document whose password is not among
    its modified paths as it is, and a profile update changes no stored
    password. *)
Theorem password_stored_hashed `{Bcrypt} (users users' : list User.Document)
    (fresh salt username email p : string) (now : Z) (body : json) :
  bcrypt_contract ->
  AuthRoutes.register users fresh now salt [] username email p
  = (Respond (mkResponse 201 body), users') ->
  (exists user,
     users' = (users ++ [user])%list /\
     User.password user = bcrypt_hash p salt /\
     User.password user <> p /\
     User.comparePassword user p = true) /\
  (forall modified salt' u,
     ~ "password" ∈ modified -> User.pre_save modified salt' u = u) /\
  (forall user_id errors new_username new_email outcome users'',
     AuthRoutes.put_profile users' user_id errors new_username new_email
     = (outcome, users'') ->
     map User.password users'' = map User.password users').
Proof.
  intros [Hcompare Hneq] Hreg. apply register_created in Hreg.
  destruct Hreg as (-> & _ & _). repeat split.
  - eexists. split; [reflexivity|]. cbn. unfold User.comparePassword. cbn. auto.
  - intros modified salt' u Hnot. unfold User.pre_save.
    now rewrite bool_decide_eq_false_2.
  - intros user_id errors new_username new_email outcome users''.
    unfold AuthRoutes.put_profile, User.findByIdAndUpdate.
    destruct errors; [|now intros [= _ <-]].
    destruct (User.findById _ user_id) as [u|] eqn:Hfind; [|now intros [= _ <-]].
    destruct (User.collides _ _ _); [now intros [= _ <-]|].
    intros [= _ <-]. now apply replace_passwords.
Qed.

Lemma password_stored_hashed_witness :
  let user := User.mk "64f0c0ffee" "alice" "alice@x.com" "secret1$salt" 5 in
  (exists user0,
     [user] = ([] ++ [user0])%list /\
     User.password user0 = @bcrypt_hash Reference.bcrypt "secret1" "salt" /\
     User.password user0 <> "secret1" /\
     @User.comparePassword Reference.bcrypt user0 "secret1" = true) /\
  (forall modified salt' u,
     ~ "password" ∈ modified -> @User.pre_save Reference.bcrypt modified salt' u = u) /\
  (forall user_id errors new_username new_email outcome users'',
     AuthRoutes.put_profile [user] user_id errors new_username new_email
     = (outcome, users'') ->
     map User.password users'' = map User.password [user]).
Proof.
  intros user.
  apply (@password_stored_hashed Reference.bcrypt [] [user]
           "64f0c0ffee" "salt" "alice" "Alice@X.com " "secret1" 5
           (AuthRoutes.public_user user)).
  - exact reference_bcrypt_contract.
  - vm_compute. reflexivity.
Defined.

(** C8. Registration answers 409 Conflict, and stores nothing, whenever a
    stored user has the submitted username or the submitted email (as the
    schema normalises them); in particular, after a successful registration
    every further registration with the same email, whatever its username
    and password, answers 409 and stores nothing. *)
Theorem registration_conflict `{Bcrypt} :
  (forall users fresh now salt username email password existing,
     In existing users ->
     User.email existing = User.set_email email
     \/ User.username existing = User.set_username username ->
     AuthRoutes.register users fresh now salt [] username email password
     = (Respond (message 409 "User already exists"), users)) /\
  (forall users fresh now salt username email password body users1,
     AuthRoutes.register users fresh now salt [] username email password
     = (Respond (mkResponse 201 body), users1) ->
     length users1 = S (length users) /\
     forall fresh' now' salt' username' password',
       AuthRoutes.register users1 fresh' now' salt' [] username' email password'
       = (Respond (message 409 "User already exists"), users1)).
Proof.
  split.
  - intros users fresh now salt username email password existing Hin Hsame.
    unfold AuthRoutes.register, User.findOne_email_or_username.
    destruct (find_In_Some
                (fun u => (bool_decide (User.email u = User.set_email email)
                           || bool_decide (User.username u = User.set_username username))%bool)
                users existing Hin) as [y ->]; [|reflexivity].
    apply orb_true_iff. destruct Hsame as [He|Hu]; [left|right];
      now apply bool_decide_eq_true_2.
  - intros users fresh now salt username email password body users1 Hreg.
    apply register_created in Hreg. destruct Hreg as (-> & _ & _).
    split; [rewrite List.length_app; simpl; lia|].
    intros fresh' now' salt' username' password'.
    unfold AuthRoutes.register, User.findOne_email_or_username.
    match goal with |- context [List.find ?f (?l ++ [?x])%list] =>
      destruct (find_app_last f l x) as [y ->]; [|reflexivity] end.
    cbn. rewrite bool_decide_eq_true_2 by reflexivity. reflexivity.
Qed.

Lemma registration_conflict_witness :
  let alice := User.mk "64f0c0ffee" "alice" "alice@x.com" "secret1$salt" 5 in
  length [alice] = 1%nat /\
  forall fresh' now' salt' username' password',
    @AuthRoutes.register Reference.bcrypt [alice] fresh' now' salt' []
      username' "alice@x.com" password'
    = (Respond (message 409 "User already exists"), [alice]).
Proof.
  intros alice.
  apply (proj2 (@registration_conflict Reference.bcrypt)
           [] "64f0c0ffee" 5 "salt" "alice" "alice@x.com" "secret1"
           (AuthRoutes.public_user alice) [alice]).
  vm_compute. reflexivity.
Defined.

(** ** The task collection *)

Lemma unique_id (tasks : list Task.Document) (x y : Task.Document) :
  NoDup (map Task._id tasks) -> In x tasks -> In y tasks ->
  Task._id x = Task._id y -> x = y.
Proof.
  induction tasks as [|z tasks IH]; simpl; [tauto|].
  intros Hnd [->|Hx] [->|Hy] Hid; inversion_clear Hnd as [|? ? Hz Hrest]; auto.
  - exfalso. apply Hz. rewrite Hid. apply list_elem_of_In. now apply in_map.
  - exfalso. apply Hz. rewrite <- Hid. apply list_elem_of_In. now apply in_map.
Qed.

(** What [exec] returns: the selected documents, each as often as it is
    stored. *)
Lemma exec_Ok `{Regex.Engine} (tasks found : list Task.Document) (q : Task.Query) :
  Task.exec tasks q = Ok found ->
  exists test,
    Task.title_test q = Some test /\
    Permutation found (List.filter (Task.selects q test) tasks).
Proof.
  unfold Task.exec. destruct (Task.title_test q) as [test|]; [|discriminate].
  intros [= <-]. exists test. split; [reflexivity|].
  destruct (Task.sort_createdAt_desc q); [|reflexivity].
  apply merge_sort_Permutation.
Qed.

Lemma exec_In `{Regex.Engine} (tasks found : list Task.Document) (q : Task.Query) :
  Task.exec tasks q = Ok found ->
  exists test,
    Task.title_test q = Some test /\
    forall t, In t found <-> In t tasks /\ Task.selects q test t = true.
Proof.
  intros Hexec. destruct (exec_Ok _ _ _ Hexec) as (test & Hp & Hperm).
  exists test. split; [exact Hp|]. intros t. rewrite <- filter_In. split; intros Hin.
  - now apply (Permutation_in _ Hperm).
  - now apply (Permutation_in _ (Permutation_sym Hperm)).
Qed.

Lemma selects_owner (q : Task.Query) (test : string -> bool) (t : Task.Document) :
  Task.selects q test t = true -> Task.userId t = Task.where_userId q.
Proof.
  unfold Task.selects. rewrite !andb_true_iff. intros [[[Ho _] _] _].
  now apply bool_decide_eq_true_1 in Ho.
Qed.

Lemma filter_absorb {A : Type} (f g : A -> bool) (l : list A) :
  (forall x, In x l -> f x = true -> g x = true) ->
  List.filter f (List.filter g l) = List.filter f l.
Proof.
  induction l as [|a l IH]; simpl; intros Himp; [reflexivity|].
  destruct (g a) eqn:Hg; simpl.
  - destruct (f a); rewrite IH; auto.
  - destruct (f a) eqn:Hf; [|apply IH; auto].
    rewrite (Himp a) in Hg; auto. discriminate.
Qed.

Lemma findOneAndUpdate_none (tasks : list Task.Document) (id owner : string)
    (upd : Task.Updates) (now : Z) :
  (forall x, In x tasks -> Task.targets id owner x = false) ->
  Task.findOneAndUpdate tasks id owner upd now = (None, tasks).
Proof.
  induction tasks as [|t tasks IH]; simpl; intros Hno; [reflexivity|].
  rewrite (Hno t) by auto. rewrite IH by auto. reflexivity.
Qed.

Lemma findOneAndDelete_none (tasks : list Task.Document) (id owner : string) :
  (forall x, In x tasks -> Task.targets id owner x = false) ->
  Task.findOneAndDelete tasks id owner = (None, tasks).
Proof.
  induction tasks as [|t tasks IH]; simpl; intros Hno; [reflexivity|].
  rewrite (Hno t) by auto. rewrite IH by auto. reflexivity.
Qed.

(** Nothing in the collection is both the task [t] and owned by another
    user. *)
Lemma foreign_not_targeted (tasks : list Task.Document) (t : Task.Document)
    (b : string) :
  NoDup (map Task._id tasks) -> In t tasks -> b <> Task.userId t ->
  forall x, In x tasks -> Task.targets (Task._id t) b x = false.
Proof.
  intros Hnd Ht Hb x Hx. unfold Task.targets.
  destruct (bool_decide (Task._id x = Task._id t)) eqn:Hid; [|reflexivity].
  apply bool_decide_eq_true_1 in Hid.
  rewrite (unique_id tasks x t Hnd Hx Ht Hid). cbn.
  apply bool_decide_eq_false_2. congruence.
Qed.

Lemma without_not_targeted (tasks : list Task.Document) (id owner : string) :
  forall x, In x (without id tasks) -> Task.targets id owner x = false.
Proof.
  intros x Hx. apply filter_In in Hx. destruct Hx as [_ Hx].
  unfold Task.targets. apply negb_true_iff in Hx. now rewrite Hx.
Qed.

(** C1. A task owned by [a] is out of reach of any other principal [b]:
    no list answer given to [b] contains a task with its identifier; update
    and delete by [b] with its identifier answer 404 Not Found and leave the
    collection as it was; and each of the three answers is the one [b] would
    get if the task had never been stored. *)
Theorem ownership_isolation `{Regex.Engine} (tasks : list Task.Document)
    (t : Task.Document) (a b : string) :
  NoDup (map Task._id tasks) ->
  In t tasks ->
  Task.userId t = a ->
  b <> a ->
  (forall q status priority response,
     TaskRoutes.get tasks b [] q status priority = Respond response ->
     exists found,
       response = mkResponse 200 (JArr (map TaskRoutes.task_json found)) /\
       forall x, In x found -> Task._id x <> Task._id t /\ Task.userId x = b) /\
  (forall now body,
     TaskRoutes.put tasks now b [] (Task._id t) body
     = (message 404 "Task not found", tasks)) /\
  TaskRoutes.remove tasks b (Task._id t) = (message 404 "Task not found", tasks) /\
  (forall q status priority,
     TaskRoutes.get tasks b [] q status priority
     = TaskRoutes.get (without (Task._id t) tasks) b [] q status priority) /\
  (forall now body,
     fst (TaskRoutes.put tasks now b [] (Task._id t) body)
     = fst (TaskRoutes.put (without (Task._id t) tasks) now b [] (Task._id t) body)) /\
  fst (TaskRoutes.remove tasks b (Task._id t))
  = fst (TaskRoutes.remove (without (Task._id t) tasks) b (Task._id t)).
Proof.
  intros Hnd Ht Ha Hb. subst a.
  pose proof (foreign_not_targeted tasks t b Hnd Ht Hb) as Hno.
  assert (Hput : forall now body,
             TaskRoutes.put tasks now b [] (Task._id t) body
             = (message 404 "Task not found", tasks)).
  { intros now body. unfold TaskRoutes.put. now rewrite findOneAndUpdate_none. }
  assert (Hdel : TaskRoutes.remove tasks b (Task._id t)
                 = (message 404 "Task not found", tasks)).
  { unfold TaskRoutes.remove. now rewrite findOneAndDelete_none. }
  repeat split.
  - intros q status priority response. unfold TaskRoutes.get.
    destruct (Task.exec tasks _) as [found|] eqn:Hexec; [|discriminate].
    intros [= <-]. exists found. split; [reflexivity|].
    destruct (exec_In _ _ _ Hexec) as (test & _ & Hin).
    intros x Hx. apply Hin in Hx. destruct Hx as [Hx Hsel].
    apply selects_owner in Hsel. cbn in Hsel. split; [|exact Hsel].
    intros Hid. apply Hb. rewrite <- Hsel. f_equal.
    now apply (unique_id tasks).
  - exact Hput.
  - exact Hdel.
  - intros q status priority. unfold TaskRoutes.get, Task.exec.
    destruct (Task.title_test _) as [test|]; [|reflexivity].
    unfold without. rewrite filter_absorb; [reflexivity|].
    intros x Hx Hsel. apply selects_owner in Hsel. cbn in Hsel.
    apply negb_true_iff, bool_decide_eq_false_2. intros Hid.
    apply Hb. rewrite <- Hsel. f_equal. now apply (unique_id tasks).
  - intros now body. rewrite Hput. unfold TaskRoutes.put.
    now rewrite findOneAndUpdate_none by apply without_not_targeted.
  - rewrite Hdel. unfold TaskRoutes.remove.
    now rewrite findOneAndDelete_none by apply without_not_targeted.
Qed.

Lemma ownership_isolation_witness :
  let t1 := Task.mk "t1" "Pay rent" "" "todo" "high" "alice" 10 10 in
  let t2 := Task.mk "t2" "Buy milk" "" "todo" "medium" "bob" 20 20 in
  (forall q status priority response,
     @TaskRoutes.get Reference.engine [t1; t2] "bob" [] q status priority
     = Respond response ->
     exists found,
       response = mkResponse 200 (JArr (map TaskRoutes.task_json found)) /\
       forall x, In x found -> Task._id x <> Task._id t1 /\ Task.userId x = "bob") /\
  (forall now body,
     TaskRoutes.put [t1; t2] now "bob" [] (Task._id t1) body
     = (message 404 "Task not found", [t1; t2])) /\
  TaskRoutes.remove [t1; t2] "bob" (Task._id t1)
  = (message 404 "Task not found", [t1; t2]) /\
  (forall q status priority,
     @TaskRoutes.get Reference.engine [t1; t2] "bob" [] q status priority
     = @TaskRoutes.get Reference.engine (without (Task._id t1) [t1; t2]) "bob" []
         q status priority) /\
  (forall now body,
     fst (TaskRoutes.put [t1; t2] now "bob" [] (Task._id t1) body)
     = fst (TaskRoutes.put (without (Task._id t1) [t1; t2]) now "bob" []
              (Task._id t1) body)) /\
  fst (TaskRoutes.remove [t1; t2] "bob" (Task._id t1))
  = fst (TaskRoutes.remove (without (Task._id t1) [t1; t2]) "bob" (Task._id t1)).
Proof.
  intros t1 t2.
  apply (@ownership_isolation Reference.engine [t1; t2] t1 "alice" "bob").
  - apply (bool_decide_unpack _). vm_compute. exact I.
  - simpl. auto.
  - reflexivity.
  - discriminate.
Defined.

(** X16. Through the mounted routes, a request changes or removes a task
    only when the Auth Gate has resolved it to the task's owner. *)
Theorem only_owner_mutates `{Jwt.Codec} (env : Env) (now : Z)
    (authorization : option string) (tasks : list Task.Document)
    (t : Task.Document) (errors : list string) (body : TaskRoutes.Body) :
  NoDup (map Task._id tasks) ->
  In t tasks ->
  fst (Auth.auth env now authorization) <> Auth.Next (Task.userId t) ->
  snd (Router.tasks_put env now authorization tasks errors (Task._id t) body) = tasks /\
  snd (Router.tasks_delete env now authorization tasks (Task._id t)) = tasks.
Proof.
  intros Hnd Hin Hauth. unfold Router.tasks_put, Router.tasks_delete, Auth.guarded.
  destruct (fst (Auth.auth env now authorization)) as [r|b]; [split; reflexivity|].
  assert (Hb : b <> Task.userId t) by congruence.
  pose proof (foreign_not_targeted tasks t b Hnd Hin Hb) as Hno.
  unfold TaskRoutes.put, TaskRoutes.remove.
  rewrite findOneAndUpdate_none, findOneAndDelete_none by exact Hno.
  split; [now destruct errors|reflexivity].
Qed.

(** ** Update *)

Lemma targets_self (t : Task.Document) :
  Task.targets (Task._id t) (Task.userId t) t = true.
Proof. unfold Task.targets. now rewrite !bool_decide_eq_true_2. Qed.

(** With unique identifiers, [findOneAndUpdate] by a task's identifier and
    owner updates that task in place and nothing else. *)
Lemma findOneAndUpdate_owned (tasks : list Task.Document) (t : Task.Document)
    (upd : Task.Updates) (now : Z) :
  NoDup (map Task._id tasks) -> In t tasks ->
  exists before after,
    tasks = (before ++ t :: after)%list /\
    Task.findOneAndUpdate tasks (Task._id t) (Task.userId t) upd now
    = (Some (Task.apply_updates upd now t),
       (before ++ Task.apply_updates upd now t :: after)%list).
Proof.
  induction tasks as [|x tasks IH]; intros Hnd Hin; [destruct Hin|].
  simpl. destruct (Task.targets (Task._id t) (Task.userId t) x) eqn:Hx.
  - assert (x = t) as ->.
    { apply (unique_id (x :: tasks)); simpl; auto.
      unfold Task.targets in Hx. apply andb_true_iff in Hx.
      destruct Hx as [Hx _]. now apply bool_decide_eq_true_1 in Hx. }
    exists [], tasks. split; reflexivity.
  - destruct Hin as [->|Hin]; [rewrite targets_self in Hx; discriminate|].
    inversion_clear Hnd as [|? ? _ Hrest].
    destruct (IH Hrest Hin) as (before & after & -> & ->).
    exists (x :: before), after. split; reflexivity.
Qed.

(** C9. An update by the owner answers 200 with the updated task, which
    replaces the task in place while every other task is untouched. Its
    identifier, owner and creation time are unchanged, its last-modified
    time is the time of the update, and each of title, description, status
    and priority is the value supplied in the request (the title through
    the schema's trim) or, when the request does not supply it, the value it
    had. For an empty request, the task changes in its last-modified time
    only. *)
Theorem update_frame (tasks : list Task.Document) (t : Task.Document) (now : Z)
    (body : TaskRoutes.Body) :
  NoDup (map Task._id tasks) ->
  In t tasks ->
  exists t' before after,
    tasks = (before ++ t :: after)%list /\
    TaskRoutes.put tasks now (Task.userId t) [] (Task._id t) body
    = (mkResponse 200 (TaskRoutes.task_json t'), (before ++ t' :: after)%list) /\
    Task._id t' = Task._id t /\
    Task.userId t' = Task.userId t /\
    Task.createdAt t' = Task.createdAt t /\
    Task.updatedAt t' = now /\
    Task.title t'
    = match TaskRoutes.title body with
      | Some v => Task.set_title v
      | None => Task.title t
      end /\
    Task.description t'
    = match TaskRoutes.description body with
      | Some v => v
      | None => Task.description t
      end /\
    Task.status t'
    = match TaskRoutes.status body with
      | Some v => v
      | None => Task.status t
      end /\
    Task.priority t'
    = match TaskRoutes.priority body with
      | Some v => v
      | None => Task.priority t
      end /\
    (body = TaskRoutes.mkBody None None None None ->
     t' = Task.mk (Task._id t) (Task.title t) (Task.description t) (Task.status t)
                  (Task.priority t) (Task.userId t) (Task.createdAt t) now).
Proof.
  intros Hnd Hin.
  pose (upd := Task.mkUpdates (TaskRoutes.title body) (TaskRoutes.description body)
                              (TaskRoutes.status body) (TaskRoutes.priority body)).
  destruct (findOneAndUpdate_owned tasks t upd now Hnd Hin)
    as (before & after & Htasks & Hupd).
  exists (Task.apply_updates upd now t), before, after.
  split; [exact Htasks|]. split.
  { unfold TaskRoutes.put. fold upd. now rewrite Hupd. }
  destruct body as [[v1|] [v2|] [v3|] [v4|]]; cbn; repeat split; try discriminate.
Qed.

Lemma update_frame_witness :
  let t1 := Task.mk "t1" "Pay rent" "by Friday" "todo" "high" "alice" 10 10 in
  let t2 := Task.mk "t2" "Buy milk" "" "todo" "medium" "bob" 20 20 in
  let body := TaskRoutes.mkBody None None None None in
  exists t' before after,
    [t1; t2] = (before ++ t1 :: after)%list /\
    TaskRoutes.put [t1; t2] 99 (Task.userId t1) [] (Task._id t1) body
    = (mkResponse 200 (TaskRoutes.task_json t'), (before ++ t' :: after)%list) /\
    Task._id t' = Task._id t1 /\
    Task.userId t' = Task.userId t1 /\
    Task.createdAt t' = Task.createdAt t1 /\
    Task.updatedAt t' = 99 /\
    Task.title t'
    = match TaskRoutes.title body with
      | Some v => Task.set_title v
      | None => Task.title t1
      end /\
    Task.description t'
    = match TaskRoutes.description body with
      | Some v => v
      | None => Task.description t1
      end /\
    Task.status t'
    = match TaskRoutes.status body with
      | Some v => v
      | None => Task.status t1
      end /\
    Task.priority t'
    = match TaskRoutes.priority body with
      | Some v => v
      | None => Task.priority t1
      end /\
    (body = TaskRoutes.mkBody None None None None ->
     t' = Task.mk (Task._id t1) (Task.title t1) (Task.description t1) (Task.status t1)
                  (Task.priority t1) (Task.userId t1) (Task.createdAt t1) 99).
Proof.
  intros t1 t2 body.
  apply (update_frame [t1; t2] t1 99 body).
  - apply (bool_decide_unpack _). vm_compute. exact I.
  - simpl. auto.
Defined.

(** ** Response bodies *)

Lemma task_json_keys (t : Task.Document) :
  keys (TaskRoutes.task_json t)
  = ["id"; "title"; "description"; "status"; "priority"; "createdAt"; "updatedAt"].
Proof. reflexivity. Qed.

(** C10. Every task object in a 200 answer of the list endpoint, and the
    body of every 201 answer of the create endpoint and of every 200 answer
    of the update endpoint, is the projection of a task whose fields are
    exactly id, title, description, status, priority, createdAt and
    updatedAt; the owner identifier is not among them. *)
Theorem task_responses_fields `{Regex.Engine} :
  let fields :=
    ["id"; "title"; "description"; "status"; "priority"; "createdAt"; "updatedAt"] in
  (forall tasks user_id errors q status0 priority response,
     TaskRoutes.get tasks user_id errors q status0 priority = Respond response ->
     status response = 200 ->
     exists items,
       body response = JArr items /\
       forall item, In item items ->
         exists t, item = TaskRoutes.task_json t /\ keys item = fields) /\
  (forall tasks fresh now user_id errors title description status0 priority
          response tasks',
     TaskRoutes.post tasks fresh now user_id errors title description status0 priority
     = (Respond response, tasks') ->
     status response = 201 ->
     exists t, body response = TaskRoutes.task_json t /\ keys (body response) = fields) /\
  (forall tasks now user_id errors id request response tasks',
     TaskRoutes.put tasks now user_id errors id request = (response, tasks') ->
     status response = 200 ->
     exists t, body response = TaskRoutes.task_json t /\ keys (body response) = fields) /\
  ~ In "userId" fields.
Proof.
  intros fields. repeat split.
  - intros tasks user_id errors q status0 priority response. unfold TaskRoutes.get.
    destruct errors; [|intros [= <-]; discriminate].
    destruct (Task.exec _ _) as [found|]; [|discriminate].
    intros [= <-] _. eexists. split; [reflexivity|].
    intros item Hin. apply in_map_iff in Hin. destruct Hin as (t & <- & _).
    exists t. split; reflexivity.
  - intros tasks fresh now user_id errors title description status0 priority
           response tasks'. unfold TaskRoutes.post.
    destruct errors; [|intros [= <- _]; discriminate].
    destruct (Task.create _ _ _ _ _ _ _ _) as [[t ts]|]; [|discriminate].
    intros [= <- _] _. exists t. split; reflexivity.
  - intros tasks now user_id errors id request response tasks'. unfold TaskRoutes.put.
    destruct errors; [|intros [= <- _]; discriminate].
    destruct (Task.findOneAndUpdate _ _ _ _ _) as [[t|] ts].
    + intros [= <- _] _. exists t. split; reflexivity.
    + intros [= <- _]. discriminate.
  - simpl. intuition discriminate.
Qed.

(** ** Search *)

Lemma literal_cons (c : ascii) (rest : string) :
  Regex.literal (String c rest) ->
  Regex.is_meta c = false /\ Regex.literal rest.
Proof.
  intros Hlit. split.
  - apply Hlit. simpl. now rewrite Ascii.eqb_refl.
  - intros d Hd. apply Hlit. simpl. rewrite Hd. apply orb_true_r.
Qed.

Lemma parse_literal (pattern : string) :
  Regex.literal pattern -> Regex.parse pattern = Some (lits pattern).
Proof.
  induction pattern as [|c rest IH]; intros Hlit; [reflexivity|].
  apply literal_cons in Hlit. destruct Hlit as [Hc Hrest]. simpl.
  destruct (Ascii.eqb_spec c ".") as [->|_]; [discriminate|].
  rewrite Hc, (IH Hrest). reflexivity.
Qed.

Lemma toLowerCase_cons (c : ascii) (s : string) :
  JS.toLowerCase (String c s) = String (JS.lower_ascii c) (JS.toLowerCase s).
Proof. reflexivity. Qed.

Lemma match_here_lits (needle subject : string) :
  Regex.match_here (lits needle) subject = true <->
  exists after, JS.toLowerCase subject = (JS.toLowerCase needle ++ after)%string.
Proof.
  revert subject. induction needle as [|c needle IH]; intros subject.
  - simpl. split; [intros _; now exists (JS.toLowerCase subject)|reflexivity].
  - destruct subject as [|d subject]; simpl lits; cbn [Regex.match_here].
    + split; [discriminate|intros [after Ha]; discriminate].
    + rewrite andb_true_iff, IH, !toLowerCase_cons. cbn [Regex.atom_matches].
      split.
      * intros [Hc [after Ha]]. apply Ascii.eqb_eq in Hc.
        exists after. rewrite append_cons, Hc, Ha. reflexivity.
      * intros [after Ha]. rewrite append_cons in Ha. injection Ha as Hd Ha.
        split; [apply Ascii.eqb_eq; congruence|eauto].
Qed.

Lemma search_lits (needle subject : string) :
  Regex.search (lits needle) subject = true <-> contains_ci needle subject.
Proof.
  unfold contains_ci. induction subject as [|d subject IH].
  - cbn [Regex.search]. rewrite orb_false_r, match_here_lits. split.
    + intros [after Ha]. now exists "", after.
    + intros ([|x before] & after & Ha); [now exists after|discriminate].
  - cbn [Regex.search]. rewrite orb_true_iff, match_here_lits, IH. split.
    + intros [[after Ha]|(before & after & Ha)].
      * now exists "", after.
      * exists (String (JS.lower_ascii d) before), after.
        rewrite toLowerCase_cons, append_cons, Ha. reflexivity.
    + intros ([|x before] & after & Ha).
      * left. now exists after.
      * right. rewrite toLowerCase_cons, append_cons in Ha. injection Ha as _ Ha.
        now exists before, after.
Qed.

Lemma contains_ci_empty (subject : string) : contains_ci "" subject.
Proof. now exists "", (JS.toLowerCase subject). Qed.

Lemma holds_eq_meets (wanted : option string) (actual : string) :
  Task.holds_eq (if JS.truthy_opt wanted then wanted else None) actual = true
  <-> meets wanted actual.
Proof.
  unfold meets. destruct wanted as [[|c v]|]; cbn.
  - split; [intros _ v [= <-] Hne; congruence|reflexivity].
  - rewrite bool_decide_eq_true. split; [intros -> w [= <-] _; reflexivity|].
    intros Hm. now apply Hm.
  - split; [discriminate|reflexivity].
Qed.

(** For a query string without regular-expression metacharacter, the
    list operation answers 200 with exactly the stored
    tasks that are owned by the caller, meet the status and priority filters
    that are supplied, and whose title contains the query string when case
    is ignored; the description plays no part. *)
Theorem list_title_search `{Regex.Engine} (tasks : list Task.Document)
    (owner q : string) (status0 priority : option string) :
  Regex.literal q ->
  exists found,
    TaskRoutes.get tasks owner [] (Some q) status0 priority
    = Respond (mkResponse 200 (JArr (map TaskRoutes.task_json found))) /\
    forall t,
      In t found <->
      In t tasks /\ Task.userId t = owner /\
      meets status0 (Task.status t) /\ meets priority (Task.priority t) /\
      contains_ci q (Task.title t).
Proof.
  intros Hlit. unfold TaskRoutes.get.
  destruct (Task.exec tasks (TaskRoutes.get_query owner (Some q) status0 priority))
    as [found|] eqn:Hexec.
  - exists found. split; [reflexivity|].
    destruct (exec_In _ _ _ Hexec) as (test & Hp & Hin).
    intros t. rewrite Hin. unfold Task.selects. cbn.
    rewrite !andb_true_iff, bool_decide_eq_true, !holds_eq_meets.
    assert (Hq : test (Task.title t) = true <-> contains_ci q (Task.title t)).
    { unfold Task.title_test in Hp. cbn in Hp. destruct q as [|c q].
      - cbn in Hp. injection Hp as <-. split; [intros _; apply contains_ci_empty|reflexivity].
      - cbn [JS.truthy] in Hp. unfold Regex.compile in Hp.
        rewrite (parse_literal _ Hlit) in Hp.
        injection Hp as <-. exact (search_lits (String c q) (Task.title t)). }
    rewrite Hq. tauto.
  - exfalso. unfold Task.exec, Task.title_test in Hexec. cbn in Hexec.
    destruct q as [|c q]; [discriminate|].
    cbn [JS.truthy] in Hexec. unfold Regex.compile in Hexec.
    rewrite (parse_literal _ Hlit) in Hexec. discriminate.
Qed.

Lemma list_title_search_witness :
  exists found,
    @TaskRoutes.get Reference.engine
      [Task.mk "t1" "Report A" "" "todo" "medium" "alice" 10 10;
       Task.mk "t2" "Report B" "urgent" "todo" "medium" "alice" 20 20]
      "alice" [] (Some "urgent") None None
    = Respond (mkResponse 200 (JArr (map TaskRoutes.task_json found))) /\
    forall t,
      In t found <->
      In t [Task.mk "t1" "Report A" "" "todo" "medium" "alice" 10 10;
            Task.mk "t2" "Report B" "urgent" "todo" "medium" "alice" 20 20] /\
      Task.userId t = "alice" /\
      meets None (Task.status t) /\ meets None (Task.priority t) /\
      contains_ci "urgent" (Task.title t).
Proof.
  apply (@list_title_search Reference.engine _ "alice" "urgent" None None).
  intros c Hc. cbn in Hc. rewrite !orb_true_iff in Hc.
  destruct Hc as [Hc|[Hc|[Hc|[Hc|[Hc|[Hc|Hc]]]]]]; try discriminate;
    apply Ascii.eqb_eq in Hc; subst c; reflexivity.
Defined.

(** C5. The list operation does not return exactly the tasks whose title
    contains [q]: the text is handed to the store as a regular expression,
    so for [q = "."] it answers with a task titled [abc], whose title does
    not contain a full stop. *)
Lemma list_title_search_counterexample :
  let t := Task.mk "t1" "abc" "" "todo" "medium" "alice" 10 10 in
  @TaskRoutes.get Reference.engine [t] "alice" [] (Some ".") None None
  = Respond (mkResponse 200 (JArr [TaskRoutes.task_json t])) /\
  ~ contains_ci "." (Task.title t).
Proof.
  split; [reflexivity|].
  intros (before & after & Hc). cbn in Hc.
  destruct before as [|x1 [|x2 [|x3 [|x4 before]]]]; discriminate.
Qed.

(** ** A missing signing secret *)

Lemma secret_absent_empty (env : Env) :
  secret_absent env <-> JS.or_empty (env !! "JWT_SECRET") = "".
Proof. unfold secret_absent. now rewrite or_empty_None. Qed.

(** Start-up never reads the signing secret. *)
Lemma start_ignores_secret `{Server.Numbers} (env : Env) (secret : string)
    (reachable bindable : bool) :
  Server.start (<["JWT_SECRET" := secret]> env) reachable bindable
  = Server.start env reachable bindable.
Proof.
  unfold Server.start, Server.connect, Server.port.
  rewrite !lookup_insert_ne by discriminate. reflexivity.
Qed.

(** C6, amended. When the signing secret is absent from the
    configuration, start-up does not fail on that account: it does not read
    the secret, and goes as it would with a secret. The absence shows per
    request: the Auth Gate answers every request that carries a bearer token
    with the 500 server-configuration error. No token is signed with the
    missing secret: the signing call is refused, and login never answers
    200. *)
Theorem secret_absent_behaviour `{Bcrypt} `{Jwt.Codec} `{Server.Numbers} (env : Env) :
  secret_absent env ->
  (forall reachable bindable secret,
     Server.start env reachable bindable
     = Server.start (<["JWT_SECRET" := secret]> env) reachable bindable) /\
  (forall now authorization token,
     carries_bearer authorization token ->
     Auth.auth env now authorization
     = (Auth.Reply (message 500 "Server config error"), [])) /\
  (forall uid now, Jwt.sign uid (JS.or_empty (env !! "JWT_SECRET")) now = None) /\
  (forall users now errors email password response,
     AuthRoutes.login env users now errors email password = Respond response ->
     status response = 400 \/ status response = 401).
Proof.
  intros Habsent. apply secret_absent_empty in Habsent. repeat split.
  - intros reachable bindable secret. now rewrite start_ignores_secret.
  - intros now authorization token Hcarries. unfold Auth.auth.
    rewrite (carries_bearer_token _ _ Hcarries). destruct Hcarries as [Hne _].
    apply truthy_true in Hne. rewrite Hne, Habsent. reflexivity.
  - intros uid now. now rewrite Habsent.
  - intros users now errors email password response. unfold AuthRoutes.login.
    destruct errors; [|intros [= <-]; now left].
    destruct (User.findOne_email users email) as [user|]; [|intros [= <-]; now right].
    destruct (negb (User.comparePassword user password)); [intros [= <-]; now right|].
    rewrite Habsent. discriminate.
Qed.

Lemma secret_absent_behaviour_witness :
  let env : Env := {[ "MONGODB_URI" := "mongodb://localhost:27017/intern_tasks" ]} in
  (forall reachable bindable secret,
     @Server.start Reference.numbers env reachable bindable
     = @Server.start Reference.numbers (<["JWT_SECRET" := secret]> env)
         reachable bindable) /\
  (forall now authorization token,
     carries_bearer authorization token ->
     @Auth.auth Reference.codec env now authorization
     = (Auth.Reply (message 500 "Server config error"), [])) /\
  (forall uid now,
     @Jwt.sign Reference.codec uid (JS.or_empty (env !! "JWT_SECRET")) now = None) /\
  (forall users now errors email password response,
     @AuthRoutes.login Reference.bcrypt Reference.codec env users now errors email password
     = Respond response ->
     status response = 400 \/ status response = 401).
Proof.
  intros env.
  apply (@secret_absent_behaviour Reference.bcrypt Reference.codec Reference.numbers env).
  left. vm_compute. reflexivity.
Defined.

(** Without the signing secret the process starts and listens, and the
    absence is reported to a request. *)
Lemma secret_startup_counterexample :
  let env : Env := {[ "MONGODB_URI" := "mongodb://localhost:27017/intern_tasks" ]} in
  secret_absent env /\
  @Server.start Reference.numbers env true true = Server.Listening 5000 /\
  @Auth.auth Reference.codec env 0 (Some "Bearer abc")
  = (Auth.Reply (message 500 "Server config error"), []).
Proof.
  split; [left; vm_compute; reflexivity|].
  split; vm_compute; reflexivity.
Qed.

(** ** Scenarios *)

(** Register, then log in with a wrong and with the right password. *)
Example scenario_register_login :
  let env : Env := {[ "JWT_SECRET" := "s3cret" ]} in
  let alice := User.mk "64f0c0ffee" "alice" "alice@x.com" "secret1$salt" 5 in
  @AuthRoutes.register Reference.bcrypt [] "64f0c0ffee" 5 "salt" []
    "alice" "alice@x.com" "secret1"
  = (Respond (mkResponse 201 (AuthRoutes.public_user alice)), [alice]) /\
  @AuthRoutes.login Reference.bcrypt Reference.codec env [alice] 9 []
    "alice@x.com" "secret2"
  = Respond (message 401 "Invalid credentials") /\
  exists token user_json,
    token <> "" /\
    @AuthRoutes.login Reference.bcrypt Reference.codec env [alice] 9 []
      "alice@x.com" "secret1"
    = Respond (mkResponse 200 (JObj [("token", JStr token); ("user", user_json)])).
Proof.
  split; [vm_compute; reflexivity|]. split; [vm_compute; reflexivity|].
  eexists _, _. split; [|vm_compute; reflexivity]. discriminate.
Qed.

(** Create with defaults, then list by status. *)
Example scenario_create_list :
  let milk := Task.mk "t1" "Buy milk" "" "todo" "medium" "alice" 10 10 in
  TaskRoutes.post [] "t1" 10 "alice" [] "Buy milk" None None None
  = (Respond (mkResponse 201 (TaskRoutes.task_json milk)), [milk]) /\
  @TaskRoutes.get Reference.engine [milk] "alice" [] None (Some "todo") None
  = Respond (mkResponse 200 (JArr [TaskRoutes.task_json milk])) /\
  @TaskRoutes.get Reference.engine [milk] "alice" [] None (Some "completed") None
  = Respond (mkResponse 200 (JArr [])).
Proof. repeat split; vm_compute; reflexivity. Qed.

(** A word of the description alone does not select a task, and the most
    recent task comes first. *)
Example scenario_title_only :
  let a := Task.mk "t1" "Report A" "" "todo" "medium" "alice" 10 10 in
  let b := Task.mk "t2" "Report B" "urgent" "todo" "medium" "alice" 20 20 in
  @TaskRoutes.get Reference.engine [a; b] "alice" [] (Some "urgent") None None
  = Respond (mkResponse 200 (JArr [])) /\
  @TaskRoutes.get Reference.engine [a; b] "alice" [] (Some "REPORT") None None
  = Respond (mkResponse 200 (JArr [TaskRoutes.task_json b; TaskRoutes.task_json a])).
Proof. repeat split; vm_compute; reflexivity. Qed.


(* ===================================================================== *)
(** * Further properties *)
(* ===================================================================== *)

(** ** The schema setters *)

Lemma lower_ascii_idem (c : ascii) :
  JS.lower_ascii (JS.lower_ascii c) = JS.lower_ascii c.
Proof. destruct c as [[] [] [] [] [] [] [] []]; reflexivity. Qed.

Lemma is_space_lower (c : ascii) : JS.is_space (JS.lower_ascii c) = JS.is_space c.
Proof. destruct c as [[] [] [] [] [] [] [] []]; reflexivity. Qed.

Lemma toLowerCase_idem (s : string) :
  JS.toLowerCase (JS.toLowerCase s) = JS.toLowerCase s.
Proof.
  induction s as [|c s IH]; [reflexivity|].
  rewrite !toLowerCase_cons, lower_ascii_idem, IH. reflexivity.
Qed.

Lemma trimStart_lower (s : string) :
  JS.toLowerCase (JS.trimStart s) = JS.trimStart (JS.toLowerCase s).
Proof.
  induction s as [|c s IH]; [reflexivity|].
  cbn [JS.trimStart JS.toLowerCase]. rewrite is_space_lower.
  destruct (JS.is_space c); [exact IH|reflexivity].
Qed.

Lemma trimEnd_cons (c : ascii) (s : string) :
  JS.trimEnd (String c s)
  = match JS.trimEnd s with
    | EmptyString => if JS.is_space c then EmptyString else String c EmptyString
    | String d r => String c (String d r)
    end.
Proof. cbn [JS.trimEnd]. destruct (JS.trimEnd s); reflexivity. Qed.

Lemma trimEnd_lower (s : string) :
  JS.toLowerCase (JS.trimEnd s) = JS.trimEnd (JS.toLowerCase s).
Proof.
  induction s as [|c s IH]; [reflexivity|].
  rewrite toLowerCase_cons, !trimEnd_cons, <- IH, is_space_lower.
  destruct (JS.trimEnd s) as [|d r]; [destruct (JS.is_space c)|]; reflexivity.
Qed.

Lemma trim_lower (s : string) : JS.toLowerCase (JS.trim s) = JS.trim (JS.toLowerCase s).
Proof. unfold JS.trim. now rewrite trimEnd_lower, trimStart_lower. Qed.

(** What [trimStart] leaves does not begin with white space. *)
Lemma trimStart_head (s : string) :
  JS.trimStart s = "" \/
  exists c r, JS.trimStart s = String c r /\ JS.is_space c = false.
Proof.
  induction s as [|c s IH]; [now left|].
  cbn [JS.trimStart]. destruct (JS.is_space c) eqn:Hc; [exact IH|].
  right. now exists c, s.
Qed.

Lemma trimEnd_keeps_head (c : ascii) (s : string) :
  JS.is_space c = false -> JS.trimEnd (String c s) = String c (JS.trimEnd s).
Proof.
  intros Hc. rewrite trimEnd_cons, Hc. now destruct (JS.trimEnd s).
Qed.

Lemma trimEnd_idem (s : string) : JS.trimEnd (JS.trimEnd s) = JS.trimEnd s.
Proof.
  induction s as [|c s IH]; [reflexivity|].
  rewrite trimEnd_cons. destruct (JS.trimEnd s) as [|d r] eqn:Hr.
  - destruct (JS.is_space c) eqn:Hc; [reflexivity|].
    rewrite trimEnd_cons. cbn [JS.trimEnd]. now rewrite Hc.
  - rewrite trimEnd_cons, IH. reflexivity.
Qed.

Lemma trim_idem (s : string) : JS.trim (JS.trim s) = JS.trim s.
Proof.
  unfold JS.trim. destruct (trimStart_head s) as [->|(c & r & -> & Hc)]; [reflexivity|].
  rewrite (trimEnd_keeps_head c r Hc). cbn [JS.trimStart]. rewrite Hc.
  rewrite <- (trimEnd_keeps_head c r Hc). apply trimEnd_idem.
Qed.

Lemma set_email_idem (e : string) : User.set_email (User.set_email e) = User.set_email e.
Proof.
  unfold User.set_email.
  now rewrite (trim_lower (JS.toLowerCase e)), toLowerCase_idem, trim_idem.
Qed.

Lemma set_username_idem (n : string) :
  User.set_username (User.set_username n) = User.set_username n.
Proof. apply trim_idem. Qed.

(** ** Lists *)

Lemma find_all_false {A : Type} (f : A -> bool) (l : list A) :
  (forall x, In x l -> f x = false) -> List.find f l = None.
Proof.
  induction l as [|a l IH]; intros Hall; [reflexivity|].
  simpl. rewrite (Hall a) by (simpl; auto). apply IH. intros x Hx. apply Hall. simpl; auto.
Qed.

Lemma find_snoc {A : Type} (f : A -> bool) (l : list A) (x : A) :
  List.find f l = None ->
  List.find f (l ++ [x])%list = if f x then Some x else None.
Proof.
  induction l as [|a l IH]; simpl; [reflexivity|].
  destruct (f a); [discriminate|exact IH].
Qed.

Lemma existsb_false {A : Type} (f : A -> bool) (l : list A) :
  existsb f l = false <-> forall x, In x l -> f x = false.
Proof.
  induction l as [|a l IH]; simpl; [tauto|].
  rewrite orb_false_iff, IH. split.
  - intros [Ha Hl] x [<-|Hx]; auto.
  - intros Hall. split; [|intros x Hx]; apply Hall; auto.
Qed.

Lemma NoDup_map_snoc {A B : Type} (f : A -> B) (l : list A) (x : A) :
  NoDup (map f l) -> (forall y, In y l -> f y <> f x) -> NoDup (map f (l ++ [x])%list).
Proof.
  induction l as [|a l IH]; simpl; intros Hnd Hne.
  - apply NoDup_cons. split; [apply not_elem_of_nil|apply NoDup_nil_2].
  - apply NoDup_cons in Hnd. destruct Hnd as [Ha Hnd]. apply NoDup_cons. split.
    + rewrite list_elem_of_In, map_app, in_app_iff. intros [Hin|[Hin|[]]].
      * apply Ha. now apply list_elem_of_In.
      * apply (Hne a); auto.
    + apply IH; auto.
Qed.

(** ** Registration, continued *)

(** The save hook on a new document hashes its password. *)
Lemma pre_save_new `{Bcrypt} (salt : string) (u : User.Document) :
  User.pre_save ["username"; "email"; "password"] salt u
  = User.mk (User._id u) (User.username u) (User.email u)
            (bcrypt_hash (User.password u) salt) (User.createdAt u).
Proof.
  unfold User.pre_save. rewrite bool_decide_eq_true_2; [reflexivity|].
  apply list_elem_of_In. simpl. auto.
Qed.

(** X1. For a username, an email and a password made of ASCII
    characters, registration answers 201 with the public projection of the
    new user, and stores that user after the others, exactly when the request
    passed validation, no stored user has the normalised email, the
    normalised username or the fresh identifier, the normalised username has
    at least 3 characters, the normalised email is not empty and the
    password has at least 6 characters. The stored password is the bcrypt
    hash. *)
Theorem register_succeeds_iff `{Bcrypt} (users : list User.Document)
    (fresh salt username email password : string) (now : Z) (errors : list string) :
  let user := User.mk fresh (User.set_username username) (User.set_email email)
                      (bcrypt_hash password salt) now in
  all_ascii username = true ->
  all_ascii email = true ->
  all_ascii password = true ->
  AuthRoutes.register users fresh now salt errors username email password
  = (Respond (mkResponse 201 (AuthRoutes.public_user user)), (users ++ [user])%list)
  <->
  errors = [] /\
  (forall u, In u users ->
     User.email u <> User.set_email email /\
     User.username u <> User.set_username username /\
     User._id u <> fresh) /\
  (3 <= String.length (User.set_username username))%nat /\
  User.set_email email <> "" /\
  (6 <= String.length password)%nat.
Proof.
  intros user _ _ _.
  unfold AuthRoutes.register, User.create, User.findOne_email_or_username.
  split.
  - destruct errors; [|discriminate]. intros Hreg. split; [reflexivity|].
    destruct (List.find _ users) eqn:Hfind; [discriminate|].
    destruct (negb (User.valid _)) eqn:Hvalid; [discriminate|].
    destruct (_ || _)%bool eqn:Hdup; [discriminate|]. clear Hreg.
    apply negb_false_iff in Hvalid. unfold User.valid in Hvalid.
    cbn [User.username User.email User.password] in Hvalid.
    rewrite !andb_true_iff in Hvalid. destruct Hvalid as [[Hn He] Hp].
    apply orb_false_iff in Hdup. destruct Hdup as [_ Hid].
    split; [|split; [now apply Nat.leb_le|split; [now apply truthy_true|now apply Nat.leb_le]]].
    intros u Hu. pose proof (find_none _ _ Hfind u Hu) as Hf. cbn in Hf.
    apply orb_false_iff in Hf. destruct Hf as [Hfe Hfn].
    apply bool_decide_eq_false_1 in Hfe, Hfn.
    rewrite existsb_false in Hid. apply Hid, bool_decide_eq_false_1 in Hu. auto.
  - intros (-> & Hfree & Hn & He & Hp).
    rewrite find_all_false.
    2:{ intros u Hu. destruct (Hfree u Hu) as (H1 & H2 & _).
        apply orb_false_iff. split; now apply bool_decide_eq_false_2. }
    unfold User.valid. cbn [User.username User.email User.password].
    apply Nat.leb_le in Hn, Hp. apply truthy_true in He. rewrite Hn, He, Hp.
    cbn [andb negb]. rewrite pre_save_new. cbn [User._id User.username User.email
                                                 User.password User.createdAt].
    fold user.
    replace (User.collides users fresh user) with false.
    2:{ symmetry. unfold User.collides. apply existsb_false. intros u Hu.
        destruct (Hfree u Hu) as (H1 & H2 & _). cbn.
        rewrite (bool_decide_eq_false_2 _ H1), (bool_decide_eq_false_2 _ H2).
        apply andb_false_r. }
    replace (existsb _ users) with false; [reflexivity|].
    symmetry. apply existsb_false. intros u Hu.
    destruct (Hfree u Hu) as (_ & _ & H3). now apply bool_decide_eq_false_2.
Qed.

Lemma register_succeeds_iff_witness :
  let user := User.mk "64f0c0ffee" (User.set_username "alice")
                      (User.set_email "alice@x.com")
                      (@bcrypt_hash Reference.bcrypt "secret1" "salt") 5 in
  @AuthRoutes.register Reference.bcrypt [] "64f0c0ffee" 5 "salt" []
    "alice" "alice@x.com" "secret1"
  = (Respond (mkResponse 201 (AuthRoutes.public_user user)), ([] ++ [user])%list)
  <->
  @nil string = [] /\
  (forall u, In u [] ->
     User.email u <> User.set_email "alice@x.com" /\
     User.username u <> User.set_username "alice" /\
     User._id u <> "64f0c0ffee") /\
  (3 <= String.length (User.set_username "alice"))%nat /\
  User.set_email "alice@x.com" <> "" /\
  (6 <= String.length "secret1")%nat.
Proof.
  intros user.
  apply (@register_succeeds_iff Reference.bcrypt [] "64f0c0ffee" "salt" "alice"
           "alice@x.com" "secret1" 5 []); reflexivity.
Defined.

(** After a successful registration no earlier user has the new email,
    username or identifier. *)
Lemma register_created_fresh `{Bcrypt} (users users' : list User.Document)
    (fresh salt username email password : string) (now : Z) (body : json) :
  AuthRoutes.register users fresh now salt [] username email password
  = (Respond (mkResponse 201 body), users') ->
  forall u, In u users ->
    User.email u <> User.set_email email /\
    User.username u <> User.set_username username /\
    User._id u <> fresh.
Proof.
  unfold AuthRoutes.register, User.create, User.findOne_email_or_username.
  destruct (List.find _ users) eqn:Hfind; [discriminate|].
  destruct (negb (User.valid _)); [discriminate|].
  destruct (_ || _)%bool eqn:Hdup; [discriminate|]. intros _ u Hu.
  apply orb_false_iff in Hdup. destruct Hdup as [_ Hid].
  pose proof (find_none _ _ Hfind u Hu) as Hf. cbn in Hf.
  apply orb_false_iff in Hf. destruct Hf as [Hfe Hfn].
  apply bool_decide_eq_false_1 in Hfe, Hfn.
  rewrite existsb_false in Hid. apply Hid, bool_decide_eq_false_1 in Hu. auto.
Qed.

(** X2. After a successful registration with an ASCII username and
    email and password [p], a login request that passed validation and gives
    [p] and the same email (or one that the schema setters map to the same
    stored address) answers 200, provided the signing secret is configured:
    the token is the one signed for the new user's identifier and the user
    object is the new user's. *)
Theorem register_then_login `{Bcrypt} `{Jwt.Codec} (env : Env)
    (users users' : list User.Document)
    (fresh salt username email p email' : string) (now now' : Z) (body : json) :
  bcrypt_contract ->
  JS.or_empty (env !! "JWT_SECRET") <> "" ->
  all_ascii username = true ->
  all_ascii email = true ->
  AuthRoutes.register users fresh now salt [] username email p
  = (Respond (mkResponse 201 body), users') ->
  User.set_email email' = User.set_email email ->
  exists token,
    Jwt.sign fresh (JS.or_empty (env !! "JWT_SECRET")) now' = Some token /\
    AuthRoutes.login env users' now' [] email' p
    = Respond (mkResponse 200
        (JObj [("token", JStr token);
               ("user", JObj [("id", JStr fresh);
                              ("username", JStr (User.set_username username));
                              ("email", JStr (User.set_email email))])])).
Proof.
  intros [Hcompare _] Hsecret _ _ Hreg Hsame.
  pose proof (register_created_fresh _ _ _ _ _ _ _ _ _ Hreg) as Hfresh.
  apply register_created in Hreg. destruct Hreg as (-> & _ & _).
  unfold AuthRoutes.login, User.findOne_email.
  rewrite find_snoc.
  2:{ apply find_all_false. intros u Hu. apply bool_decide_eq_false_2.
      rewrite Hsame. apply (Hfresh u Hu). }
  cbn [User.email]. rewrite Hsame, bool_decide_eq_true_2 by reflexivity.
  unfold User.comparePassword. cbn [User.password]. rewrite Hcompare.
  cbn [negb User._id User.username User.email]. unfold Jwt.sign.
  apply truthy_true in Hsecret. rewrite Hsecret. eauto.
Qed.

Lemma register_then_login_witness :
  let env : Env := {[ "JWT_SECRET" := "s3cret" ]} in
  let alice := User.mk "64f0c0ffee" "alice" "alice@x.com" "secret1$salt" 5 in
  exists token,
    @Jwt.sign Reference.codec "64f0c0ffee" (JS.or_empty (env !! "JWT_SECRET")) 9
    = Some token /\
    @AuthRoutes.login Reference.bcrypt Reference.codec env [alice] 9 []
      "alice@x.com" "secret1"
    = Respond (mkResponse 200
        (JObj [("token", JStr token);
               ("user", JObj [("id", JStr "64f0c0ffee");
                              ("username", JStr (User.set_username "alice"));
                              ("email", JStr (User.set_email "alice@x.com"))])])).
Proof.
  intros env alice.
  apply (@register_then_login Reference.bcrypt Reference.codec env [] [alice]
           "64f0c0ffee" "salt" "alice" "alice@x.com" "secret1" "alice@x.com" 5 9
           (AuthRoutes.public_user alice)).
  - exact reference_bcrypt_contract.
  - vm_compute. discriminate.
  - reflexivity.
  - reflexivity.
  - vm_compute. reflexivity.
  - reflexivity.
Defined.

(** X3. After a successful registration, the profile of the new
    identifier is the registered user: [GET /profile] answers 200 with the
    body the registration answered with. *)
Theorem register_then_profile `{Bcrypt} (users users' : list User.Document)
    (fresh salt username email password : string) (now : Z) (body : json) :
  AuthRoutes.register users fresh now salt [] username email password
  = (Respond (mkResponse 201 body), users') ->
  AuthRoutes.get_profile users' fresh = mkResponse 200 body.
Proof.
  intros Hreg.
  pose proof (register_created_fresh _ _ _ _ _ _ _ _ _ Hreg) as Hfresh.
  apply register_created in Hreg. destruct Hreg as (-> & -> & _).
  unfold AuthRoutes.get_profile, User.findById. rewrite find_snoc.
  - cbn [User._id]. now rewrite bool_decide_eq_true_2.
  - apply find_all_false. intros u Hu. apply bool_decide_eq_false_2, (Hfresh u Hu).
Qed.

Lemma register_then_profile_witness :
  let alice := User.mk "64f0c0ffee" "alice" "alice@x.com" "secret1$salt" 5 in
  AuthRoutes.get_profile [alice] "64f0c0ffee"
  = mkResponse 200 (AuthRoutes.public_user alice).
Proof.
  intros alice.
  apply (@register_then_profile Reference.bcrypt [] [alice]
           "64f0c0ffee" "salt" "alice" "alice@x.com" "secret1" 5).
  vm_compute. reflexivity.
Defined.

(** ** The user collection *)

Lemma register_cases `{Bcrypt} (users users' : list User.Document)
    (fresh salt username email password : string) (now : Z) (errors : list string)
    (out : Outcome) :
  AuthRoutes.register users fresh now salt errors username email password
  = (out, users') ->
  users' = users \/ (errors = [] /\ exists body, out = Respond (mkResponse 201 body)).
Proof.
  unfold AuthRoutes.register. destruct errors; [|intros [= _ <-]; now left].
  destruct (User.findOne_email_or_username _ _ _); [intros [= _ <-]; now left|].
  destruct (User.create _ _ _ _ _ _ _) as [[user us]|err]; intros [= <- <-]; [right|left]; eauto.
Qed.

Lemma findById_In (users : list User.Document) (id : string) (u : User.Document) :
  User.findById users id = Some u -> In u users /\ User._id u = id.
Proof.
  intros Hf. apply find_some in Hf. destruct Hf as [Hin Hid].
  now apply bool_decide_eq_true_1 in Hid.
Qed.

Lemma In_replace (users : list User.Document) (id : string) (u' x : User.Document) :
  In x (User.replace users id u') -> In x users \/ x = u'.
Proof.
  induction users as [|v users IH]; simpl; [tauto|].
  destruct (bool_decide (User._id v = id)); simpl; intros [<-|Hx]; auto.
  destruct (IH Hx); auto.
Qed.

Lemma replace_ids (users : list User.Document) (id : string) (u' : User.Document) :
  User._id u' = id ->
  map User._id (User.replace users id u') = map User._id users.
Proof.
  intros Hid. induction users as [|v users IH]; simpl; [reflexivity|].
  destruct (bool_decide (User._id v = id)) eqn:Hv; simpl.
  - apply bool_decide_eq_true_1 in Hv. congruence.
  - now rewrite IH.
Qed.

Lemma NoDup_map_replace {B : Type} (f : User.Document -> B)
    (users : list User.Document) (id : string) (u' : User.Document) :
  NoDup (map User._id users) ->
  NoDup (map f users) ->
  (forall v, In v users -> User._id v <> id -> f v <> f u') ->
  NoDup (map f (User.replace users id u')).
Proof.
  induction users as [|v users IH]; simpl; intros Hids Hf Hne; [constructor|].
  apply NoDup_cons in Hids, Hf. destruct Hids as [Hv Hids], Hf as [Hfv Hf].
  destruct (bool_decide (User._id v = id)) eqn:Hid; simpl; apply NoDup_cons.
  - apply bool_decide_eq_true_1 in Hid. split; [|exact Hf].
    rewrite list_elem_of_In, in_map_iff. intros (w & Hw & Hin).
    apply (Hne w); auto. intros Hwid. apply Hv.
    rewrite list_elem_of_In, in_map_iff. exists w. split; [congruence|exact Hin].
  - apply bool_decide_eq_false_1 in Hid. split; [|apply IH; auto].
    rewrite list_elem_of_In, in_map_iff. intros (w & Hw & Hin).
    apply In_replace in Hin. destruct Hin as [Hin| ->].
    + apply Hfv. rewrite list_elem_of_In, in_map_iff. eauto.
    + apply (Hne v); auto.
Qed.

Lemma collides_false (users : list User.Document) (id : string) (u' : User.Document) :
  User.collides users id u' = false ->
  forall v, In v users -> User._id v <> id ->
    User.username v <> User.username u' /\ User.email v <> User.email u'.
Proof.
  unfold User.collides. rewrite existsb_false. intros Hall v Hv Hid.
  specialize (Hall v Hv). cbn in Hall.
  rewrite (bool_decide_eq_false_2 _ Hid) in Hall. cbn in Hall.
  apply orb_false_iff in Hall. destruct Hall as [Hn He].
  now apply bool_decide_eq_false_1 in Hn, He.
Qed.

Lemma apply_updates_normalised (upd : User.Updates) (u : User.Document) :
  User.set_email (User.email u) = User.email u ->
  User.set_username (User.username u) = User.username u ->
  User.set_email (User.email (User.apply_updates upd u))
  = User.email (User.apply_updates upd u) /\
  User.set_username (User.username (User.apply_updates upd u))
  = User.username (User.apply_updates upd u).
Proof.
  intros He Hn. destruct upd as [[n|] [e|]]; unfold User.apply_updates; simpl;
    rewrite ?set_email_idem, ?set_username_idem; split; auto.
Qed.

(** X4. The routes that write users keep the collection well formed:
    whatever the request, after [POST /register] and after [PUT /profile]
    no two users share an identifier, an email or a username, and every
    stored email and username is in the schema's normal form (lower-cased
    and trimmed email, trimmed username). *)
Theorem user_routes_keep_invariants `{Bcrypt} (users : list User.Document) :
  unique_users users ->
  normalised_users users ->
  (forall fresh now salt errors username email password,
     let users' :=
       snd (AuthRoutes.register users fresh now salt errors username email password) in
     unique_users users' /\ normalised_users users') /\
  (forall user_id errors username email,
     let users' := snd (AuthRoutes.put_profile users user_id errors username email) in
     unique_users users' /\ normalised_users users').
Proof.
  intros Huniq Hnorm. split.
  - intros fresh now salt errors username email password users'.
    destruct (AuthRoutes.register users fresh now salt errors username email password)
      as [out us] eqn:Hreg.
    subst users'. cbn [snd].
    destruct (register_cases _ _ _ _ _ _ _ _ _ _ Hreg) as [->|(-> & body & ->)]; [auto|].
    pose proof (register_created_fresh _ _ _ _ _ _ _ _ _ Hreg) as Hfresh.
    apply register_created in Hreg. destruct Hreg as (-> & _ & _).
    destruct Huniq as (Hids & Hemails & Hnames). split; [repeat split|].
    + apply NoDup_map_snoc; [exact Hids|]. intros u Hu. apply (Hfresh u Hu).
    + apply NoDup_map_snoc; [exact Hemails|]. intros u Hu. apply (Hfresh u Hu).
    + apply NoDup_map_snoc; [exact Hnames|]. intros u Hu. apply (Hfresh u Hu).
    + intros u Hu. apply in_app_iff in Hu. destruct Hu as [Hu|[<-|[]]]; [auto|].
      cbn [User.email User.username]. now rewrite set_email_idem, set_username_idem.
  - intros user_id errors username email users'. subst users'.
    unfold AuthRoutes.put_profile, User.findByIdAndUpdate.
    destruct errors; [|auto].
    destruct (User.findById users user_id) as [u|] eqn:Hfind; [|auto].
    destruct (User.collides users user_id _) eqn:Hcol; [auto|]. cbn [snd].
    apply findById_In in Hfind. destruct Hfind as [Hu Hid].
    pose proof (collides_false _ _ _ Hcol) as Hother.
    destruct Huniq as (Hids & Hemails & Hnames). split; [repeat split|].
    + rewrite replace_ids; [exact Hids|]. now destruct u.
    + apply NoDup_map_replace; auto. intros v Hv Hne. now apply Hother.
    + apply NoDup_map_replace; auto. intros v Hv Hne. now apply Hother.
    + intros x Hx. apply In_replace in Hx. destruct Hx as [Hx| ->]; [auto|].
      destruct (Hnorm u Hu). now apply apply_updates_normalised.
Qed.

Lemma user_routes_keep_invariants_witness :
  let alice := User.mk "64f0c0ffee" "alice" "alice@x.com" "secret1$salt" 5 in
  (forall fresh now salt errors username email password,
     let users' :=
       snd (@AuthRoutes.register Reference.bcrypt [alice] fresh now salt errors
              username email password) in
     unique_users users' /\ normalised_users users') /\
  (forall user_id errors username email,
     let users' := snd (AuthRoutes.put_profile [alice] user_id errors username email) in
     unique_users users' /\ normalised_users users').
Proof.
  intros alice.
  apply (@user_routes_keep_invariants Reference.bcrypt [alice]).
  - repeat split; apply (bool_decide_unpack _); vm_compute; exact I.
  - intros u [<-|[]]. split; vm_compute; reflexivity.
Defined.

(** X5. In a collection whose emails and usernames are in normal form,
    registering again with the email of a stored user, or with the username
    of a stored user, exactly as stored, answers 409 and stores nothing. *)
Theorem stored_identity_conflicts `{Bcrypt} (users : list User.Document)
    (u : User.Document) (fresh salt username email password : string) (now : Z) :
  normalised_users users ->
  In u users ->
  AuthRoutes.register users fresh now salt [] username (User.email u) password
  = (Respond (message 409 "User already exists"), users) /\
  AuthRoutes.register users fresh now salt [] (User.username u) email password
  = (Respond (message 409 "User already exists"), users).
Proof.
  intros Hnorm Hu. destruct (Hnorm u Hu) as [He Hn].
  unfold AuthRoutes.register, User.findOne_email_or_username. split.
  - destruct (find_In_Some
                (fun v => (bool_decide (User.email v = User.set_email (User.email u))
                           || bool_decide (User.username v = User.set_username username))%bool)
                users u Hu) as [y ->]; [|reflexivity].
    rewrite He, bool_decide_eq_true_2 by reflexivity. reflexivity.
  - destruct (find_In_Some
                (fun v => (bool_decide (User.email v = User.set_email email)
                           || bool_decide (User.username v
                                           = User.set_username (User.username u)))%bool)
                users u Hu) as [y ->]; [|reflexivity].
    rewrite Hn, (bool_decide_eq_true_2 (User.username u = User.username u)) by reflexivity.
    apply orb_true_r.
Qed.

Lemma stored_identity_conflicts_witness :
  let alice := User.mk "64f0c0ffee" "alice" "alice@x.com" "secret1$salt" 5 in
  @AuthRoutes.register Reference.bcrypt [alice] "64f0c0ffef" 7 "pepper" []
    "bob" (User.email alice) "secret2"
  = (Respond (message 409 "User already exists"), [alice]) /\
  @AuthRoutes.register Reference.bcrypt [alice] "64f0c0ffef" 7 "pepper" []
    (User.username alice) "bob@x.com" "secret2"
  = (Respond (message 409 "User already exists"), [alice]).
Proof.
  intros alice.
  apply (@stored_identity_conflicts Reference.bcrypt [alice] alice).
  - intros u [<-|[]]. split; vm_compute; reflexivity.
  - simpl. auto.
Defined.

(** ** Profile update *)

Lemma replace_others (users : list User.Document) (id : string)
    (u' v : User.Document) :
  In v users -> User._id v <> id -> In v (User.replace users id u').
Proof.
  induction users as [|w users IH]; simpl; [tauto|].
  intros [<-|Hv] Hne.
  - rewrite bool_decide_eq_false_2 by exact Hne. simpl. auto.
  - destruct (bool_decide (User._id w = id)); simpl; auto.
Qed.

(** X6. A profile update that passed validation (every supplied field
    is a non-empty ASCII string), for an existing user whose new username
    and email are not taken, answers 200 with the updated user. The username
    and the email are replaced by the normalised values supplied, a field
    that the request does not supply is left as it was, identifier, password
    and creation time are unchanged, and every other user stays in the
    collection untouched. *)
Theorem profile_update_frame (users : list User.Document) (user_id : string)
    (u : User.Document) (username email : option string) :
  let username' :=
    match username with
    | Some v => User.set_username v
    | None => User.username u
    end in
  let email' :=
    match email with
    | Some v => User.set_email v
    | None => User.email u
    end in
  let u' := User.mk (User._id u) username' email' (User.password u) (User.createdAt u) in
  (forall v, username = Some v \/ email = Some v -> v <> "" /\ all_ascii v = true) ->
  User.findById users user_id = Some u ->
  (forall v, In v users -> User._id v <> user_id ->
     User.username v <> username' /\ User.email v <> email') ->
  exists users',
    AuthRoutes.put_profile users user_id [] username email
    = (Respond (mkResponse 200 (AuthRoutes.public_user u')), users') /\
    map User._id users' = map User._id users /\
    map User.password users' = map User.password users /\
    (forall v, In v users -> User._id v <> user_id -> In v users') /\
    (forall x, In x users' -> In x users \/ x = u').
Proof.
  intros username' email' u' Hvalid Hfind Hfree.
  unfold AuthRoutes.put_profile, User.findByIdAndUpdate. rewrite Hfind.
  set (upd := User.mkUpdates _ _).
  assert (Hu' : User.apply_updates upd u = u').
  { unfold u', username', email', upd, User.apply_updates.
    destruct username as [[|c v]|], email as [[|d w]|]; try reflexivity;
      exfalso;
      first [ now destruct (Hvalid "" (or_introl eq_refl))
            | now destruct (Hvalid "" (or_intror eq_refl)) ]. }
  rewrite Hu'.
  replace (User.collides users user_id u') with false.
  2:{ symmetry. unfold User.collides. apply existsb_false. intros v Hv.
      destruct (bool_decide (User._id v = user_id)) eqn:Hid; [reflexivity|].
      apply bool_decide_eq_false_1 in Hid. destruct (Hfree v Hv Hid) as [Hn He].
      cbn. now rewrite (bool_decide_eq_false_2 _ Hn), (bool_decide_eq_false_2 _ He). }
  exists (User.replace users user_id u'). split; [reflexivity|].
  destruct (findById_In _ _ _ Hfind) as [Hin Hid]. repeat split.
  - now apply replace_ids.
  - rewrite <- Hu'. now apply replace_passwords.
  - intros v Hv Hne. now apply replace_others.
  - intros x Hx. now apply In_replace in Hx.
Qed.

Lemma profile_update_frame_witness :
  let alice := User.mk "64f0c0ffee" "alice" "alice@x.com" "secret1$salt" 5 in
  let bob := User.mk "64f0c0ffef" "bob" "bob@x.com" "secret2$pepper" 6 in
  let alice' := User.mk "64f0c0ffee" "alice" "al@x.com" "secret1$salt" 5 in
  exists users',
    AuthRoutes.put_profile [alice; bob] "64f0c0ffee" [] None (Some "al@x.com")
    = (Respond (mkResponse 200 (AuthRoutes.public_user alice')), users') /\
    map User._id users' = map User._id [alice; bob] /\
    map User.password users' = map User.password [alice; bob] /\
    (forall v, In v [alice; bob] -> User._id v <> "64f0c0ffee" -> In v users') /\
    (forall x, In x users' -> In x [alice; bob] \/ x = alice').
Proof.
  intros alice bob alice'.
  apply (profile_update_frame [alice; bob] "64f0c0ffee" alice None (Some "al@x.com")).
  - intros v [Hv|Hv]; [discriminate|]. injection Hv as <-. split; [discriminate|reflexivity].
  - reflexivity.
  - intros v [<-|[<-|[]]] Hne; [exfalso; now apply Hne|]. split; vm_compute; discriminate.
Defined.

(** X7. A profile update that asks for the email or the username of
    another user is not answered with a conflict: the store's unique index
    rejects the write, the exception escapes the handler, and nothing is
    stored. *)
Theorem profile_update_taken_throws (users : list User.Document) (user_id : string)
    (u other : User.Document) (username email : option string) (taken : string) :
  User.findById users user_id = Some u ->
  In other users ->
  User._id other <> user_id ->
  taken <> "" ->
  (email = Some taken /\ User.email other = User.set_email taken) \/
  (username = Some taken /\ User.username other = User.set_username taken) ->
  AuthRoutes.put_profile users user_id [] username email
  = (Throw "E11000 duplicate key error", users).
Proof.
  intros Hfind Hother Hne Htaken Hcase.
  unfold AuthRoutes.put_profile, User.findByIdAndUpdate. rewrite Hfind.
  apply truthy_true in Htaken.
  replace (User.collides users user_id _) with true; [reflexivity|].
  symmetry. unfold User.collides. apply existsb_exists. exists other.
  split; [exact Hother|]. rewrite (bool_decide_eq_false_2 _ Hne). cbn [negb andb].
  apply orb_true_iff.
  destruct Hcase as [[-> He]|[-> Hn]]; [right|left]; apply bool_decide_eq_true_2;
    unfold User.apply_updates;
    cbn [User.email User.username User.set_email_to User.set_username_to JS.truthy_opt];
    rewrite Htaken; cbn [from_option]; assumption.
Qed.

Lemma profile_update_taken_throws_witness :
  let alice := User.mk "64f0c0ffee" "alice" "alice@x.com" "secret1$salt" 5 in
  let bob := User.mk "64f0c0ffef" "bob" "bob@x.com" "secret2$pepper" 6 in
  AuthRoutes.put_profile [alice; bob] "64f0c0ffee" [] None (Some "Bob@x.com")
  = (Throw "E11000 duplicate key error", [alice; bob]).
Proof.
  intros alice bob.
  apply (profile_update_taken_throws [alice; bob] "64f0c0ffee" alice bob
           None (Some "Bob@x.com") "Bob@x.com").
  - reflexivity.
  - simpl. auto.
  - discriminate.
  - discriminate.
  - left. split; [reflexivity|vm_compute; reflexivity].
Defined.

(** ** What the user routes answer *)

(** X8. The stored password never leaves the server: the body of every
    201 answer of registration and of every 200 answer of the two profile
    routes has exactly the fields id, username, email and createdAt, and
    every 200 answer of login has the fields token and user, the user object
    having exactly id, username and email. *)
Theorem user_responses_fields `{Bcrypt} `{Jwt.Codec} :
  let public := ["id"; "username"; "email"; "createdAt"] in
  (forall users fresh now salt errors username email password response users',
     AuthRoutes.register users fresh now salt errors username email password
     = (Respond response, users') ->
     status response = 201 -> keys (body response) = public) /\
  (forall env users now errors email password response,
     AuthRoutes.login env users now errors email password = Respond response ->
     status response = 200 ->
     exists token user_json,
       body response = JObj [("token", JStr token); ("user", user_json)] /\
       keys user_json = ["id"; "username"; "email"]) /\
  (forall users user_id,
     status (AuthRoutes.get_profile users user_id) = 200 ->
     keys (body (AuthRoutes.get_profile users user_id)) = public) /\
  (forall users user_id errors username email response users',
     AuthRoutes.put_profile users user_id errors username email
     = (Respond response, users') ->
     status response = 200 -> keys (body response) = public) /\
  ~ In "password" public.
Proof.
  intros public. repeat split.
  - intros users fresh now salt errors username email password response users'.
    unfold AuthRoutes.register. destruct errors; [|intros [= <- _]; discriminate].
    destruct (User.findOne_email_or_username _ _ _); [intros [= <- _]; discriminate|].
    destruct (User.create _ _ _ _ _ _ _) as [[user us]|]; [|discriminate].
    intros [= <- _] _. reflexivity.
  - intros env users now errors email password response. unfold AuthRoutes.login.
    destruct errors; [|intros [= <-]; discriminate].
    destruct (User.findOne_email _ _) as [user|]; [|intros [= <-]; discriminate].
    destruct (negb _); [intros [= <-]; discriminate|].
    destruct (Jwt.sign _ _ _) as [token|]; [|discriminate].
    intros [= <-] _. eexists _, _. split; reflexivity.
  - intros users user_id. unfold AuthRoutes.get_profile.
    destruct (User.findById _ _); [reflexivity|discriminate].
  - intros users user_id errors username email response users'.
    unfold AuthRoutes.put_profile. destruct errors; [|intros [= <- _]; discriminate].
    destruct (User.findByIdAndUpdate _ _ _) as [[[user|] us]|]; [| |discriminate].
    + intros [= <- _] _. reflexivity.
    + intros [= <- _]. discriminate.
  - simpl. intuition discriminate.
Qed.

(** ** All or nothing *)

Lemma findOneAndUpdate_None (tasks tasks' : list Task.Document) (id owner : string)
    (upd : Task.Updates) (now : Z) :
  Task.findOneAndUpdate tasks id owner upd now = (None, tasks') -> tasks' = tasks.
Proof.
  revert tasks'. induction tasks as [|t tasks IH]; simpl; intros tasks'.
  - now intros [= <-].
  - destruct (Task.targets id owner t); [discriminate|].
    destruct (Task.findOneAndUpdate tasks id owner upd now) as [found rest].
    intros [= -> <-]. f_equal. now apply IH.
Qed.

Lemma findOneAndDelete_None (tasks tasks' : list Task.Document) (id owner : string) :
  Task.findOneAndDelete tasks id owner = (None, tasks') -> tasks' = tasks.
Proof.
  revert tasks'. induction tasks as [|t tasks IH]; simpl; intros tasks'.
  - now intros [= <-].
  - destruct (Task.targets id owner t); [discriminate|].
    destruct (Task.findOneAndDelete tasks id owner) as [found rest].
    intros [= -> <-]. f_equal. now apply IH.
Qed.

(** X9. No request is applied in part: each of the five routes that
    write leaves its collection exactly as it was unless it answers with its
    success status (201 for registration and task creation, 200 for profile
    update, task update and task deletion). *)
Theorem failed_requests_change_nothing `{Bcrypt} :
  (forall users fresh now salt errors username email password,
     let result :=
       AuthRoutes.register users fresh now salt errors username email password in
     snd result = users \/ exists body, fst result = Respond (mkResponse 201 body)) /\
  (forall users user_id errors username email,
     let result := AuthRoutes.put_profile users user_id errors username email in
     snd result = users \/ exists body, fst result = Respond (mkResponse 200 body)) /\
  (forall tasks fresh now user_id errors title description status0 priority,
     let result :=
       TaskRoutes.post tasks fresh now user_id errors title description status0 priority in
     snd result = tasks \/ exists body, fst result = Respond (mkResponse 201 body)) /\
  (forall tasks now user_id errors id request,
     let result := TaskRoutes.put tasks now user_id errors id request in
     snd result = tasks \/ exists body, fst result = mkResponse 200 body) /\
  (forall tasks user_id id,
     let result := TaskRoutes.remove tasks user_id id in
     snd result = tasks \/ exists body, fst result = mkResponse 200 body).
Proof.
  repeat split.
  - intros users fresh now salt errors username email password result.
    destruct result as [out users'] eqn:Hr. cbn [fst snd].
    destruct (register_cases _ _ _ _ _ _ _ _ _ _ Hr) as [->|(_ & body & ->)]; eauto.
  - intros users user_id errors username email result. subst result.
    unfold AuthRoutes.put_profile, User.findByIdAndUpdate.
    destruct errors; [|now left].
    destruct (User.findById _ _); [|now left].
    destruct (User.collides _ _ _); [now left|]. right. eexists. reflexivity.
  - intros tasks fresh now user_id errors title description status0 priority result.
    subst result. unfold TaskRoutes.post. destruct errors; [|now left].
    destruct (Task.create _ _ _ _ _ _ _ _) as [[t ts]|]; [|now left].
    right. eexists. reflexivity.
  - intros tasks now user_id errors id request result. subst result.
    unfold TaskRoutes.put. destruct errors; [|now left].
    destruct (Task.findOneAndUpdate _ _ _ _ _) as [[t|] ts] eqn:Hf.
    + right. eexists. reflexivity.
    + left. cbn. now apply findOneAndUpdate_None in Hf.
  - intros tasks user_id id result. subst result. unfold TaskRoutes.remove.
    destruct (Task.findOneAndDelete _ _ _) as [[t|] ts] eqn:Hf.
    + right. eexists. reflexivity.
    + left. cbn. now apply findOneAndDelete_None in Hf.
Qed.

(** ** Task creation *)

(** X10. For a title made of ASCII characters, task creation answers
    201 with the projection of the new task, and stores that task after the
    others, exactly when the request passed validation, the trimmed title is not empty, the status and the priority
    (or their defaults [todo] and [medium] when the request has none) are
    among the allowed values, and the fresh identifier is unused. The new
    task is owned by the caller, its description defaults to the empty
    string, and both timestamps are the time of creation. *)
Theorem post_succeeds_iff (tasks : list Task.Document) (fresh user_id title : string)
    (now : Z) (errors : list string) (description status0 priority : option string) :
  let t := Task.mk fresh (JS.trim title) (default "" description)
                   (default "todo" status0) (default "medium" priority)
                   user_id now now in
  all_ascii title = true ->
  TaskRoutes.post tasks fresh now user_id errors title description status0 priority
  = (Respond (mkResponse 201 (TaskRoutes.task_json t)), (tasks ++ [t])%list)
  <->
  errors = [] /\
  JS.trim title <> "" /\
  In (default "todo" status0) ["todo"; "in-progress"; "completed"] /\
  In (default "medium" priority) ["low"; "medium"; "high"] /\
  (forall x, In x tasks -> Task._id x <> fresh).
Proof.
  intros t _. unfold TaskRoutes.post, Task.create, Task.set_title. fold t. split.
  - destruct errors; [|unfold validation_failed; discriminate].
    destruct (negb (Task.valid t)) eqn:Hvalid; [discriminate|].
    destruct (existsb _ tasks) eqn:Hdup; [discriminate|].
    intros _. split; [reflexivity|].
    apply negb_false_iff in Hvalid. unfold Task.valid in Hvalid.
    rewrite !andb_true_iff in Hvalid. destruct Hvalid as [[Ht Hs] Hp].
    apply truthy_true in Ht. apply bool_decide_eq_true_1, list_elem_of_In in Hs, Hp.
    repeat split; auto.
    intros x Hx. rewrite existsb_false in Hdup. now apply Hdup, bool_decide_eq_false_1 in Hx.
  - intros (-> & Ht & Hs & Hp & Hfresh).
    replace (Task.valid t) with true.
    2:{ symmetry. unfold Task.valid. rewrite !andb_true_iff. repeat split.
        - now apply truthy_true.
        - now apply bool_decide_eq_true_2, list_elem_of_In.
        - now apply bool_decide_eq_true_2, list_elem_of_In. }
    cbn [negb]. replace (existsb _ tasks) with false; [reflexivity|].
    symmetry. apply existsb_false. intros x Hx. now apply bool_decide_eq_false_2, Hfresh.
Qed.

Lemma post_succeeds_iff_witness :
  let t := Task.mk "t1" (JS.trim "Buy milk") (default "" None)
                   (default "todo" None) (default "medium" (Some "high"))
                   "alice" 10 10 in
  TaskRoutes.post [] "t1" 10 "alice" [] "Buy milk" None None (Some "high")
  = (Respond (mkResponse 201 (TaskRoutes.task_json t)), ([] ++ [t])%list)
  <->
  @nil string = [] /\
  JS.trim "Buy milk" <> "" /\
  In (default "todo" None) ["todo"; "in-progress"; "completed"] /\
  In (default "medium" (Some "high")) ["low"; "medium"; "high"] /\
  (forall x, In x [] -> Task._id x <> "t1").
Proof.
  intros t.
  apply (post_succeeds_iff [] "t1" "alice" "Buy milk" 10 [] None None (Some "high")).
  reflexivity.
Defined.

(** ** Deletion *)

Lemma without_all (tasks : list Task.Document) (id : string) :
  (forall x, In x tasks -> Task._id x <> id) -> without id tasks = tasks.
Proof.
  unfold without. induction tasks as [|t tasks IH]; simpl; intros Hne; [reflexivity|].
  rewrite bool_decide_eq_false_2 by (apply Hne; auto). simpl. f_equal. apply IH. auto.
Qed.

Lemma NoDup_ids_tail (t : Task.Document) (tasks : list Task.Document) :
  NoDup (map Task._id (t :: tasks)) ->
  NoDup (map Task._id tasks) /\ forall x, In x tasks -> Task._id x <> Task._id t.
Proof.
  simpl. intros Hnd. apply NoDup_cons in Hnd. destruct Hnd as [Ht Hnd].
  split; [exact Hnd|]. intros x Hx Hid. apply Ht.
  rewrite list_elem_of_In, <- Hid. now apply in_map.
Qed.

(** With unique identifiers, [findOneAndDelete] by a task's identifier
    and owner removes that task and nothing else. *)
Lemma findOneAndDelete_owned (tasks : list Task.Document) (t : Task.Document) :
  NoDup (map Task._id tasks) -> In t tasks ->
  Task.findOneAndDelete tasks (Task._id t) (Task.userId t)
  = (Some t, without (Task._id t) tasks).
Proof.
  induction tasks as [|x tasks IH]; intros Hnd Hin; [destruct Hin|].
  destruct (NoDup_ids_tail _ _ Hnd) as [Hrest Hx].
  simpl. destruct (Task.targets (Task._id t) (Task.userId t) x) eqn:Htx.
  - assert (x = t) as ->.
    { apply (unique_id (x :: tasks)); simpl; auto.
      unfold Task.targets in Htx. apply andb_true_iff in Htx.
      destruct Htx as [Htx _]. now apply bool_decide_eq_true_1 in Htx. }
    unfold without. simpl. rewrite bool_decide_eq_true_2 by reflexivity. simpl.
    f_equal. symmetry. now apply without_all.
  - destruct Hin as [->|Hin]; [rewrite targets_self in Htx; discriminate|].
    rewrite (IH Hrest Hin). unfold without. simpl.
    rewrite bool_decide_eq_false_2; [reflexivity|].
    intros Hid. apply (Hx t Hin). now symmetry.
Qed.

Lemma In_without (id : string) (tasks : list Task.Document) (x : Task.Document) :
  In x (without id tasks) <-> In x tasks /\ Task._id x <> id.
Proof.
  unfold without. rewrite filter_In, negb_true_iff, bool_decide_eq_false. tauto.
Qed.

Lemma without_length (tasks : list Task.Document) (t : Task.Document) :
  NoDup (map Task._id tasks) -> In t tasks ->
  S (length (without (Task._id t) tasks)) = length tasks.
Proof.
  induction tasks as [|x tasks IH]; intros Hnd Hin; [destruct Hin|].
  destruct (NoDup_ids_tail _ _ Hnd) as [Hrest Hx]. unfold without. simpl.
  destruct Hin as [->|Hin].
  - rewrite bool_decide_eq_true_2 by reflexivity. simpl. f_equal.
    fold (without (Task._id t) tasks). now rewrite without_all.
  - rewrite bool_decide_eq_false_2 by (intros Hid; apply (Hx t Hin); now symmetry).
    simpl. f_equal. now apply IH.
Qed.

(** X11. With unique identifiers, a delete by the owner answers 200 with
    [{ success: true }] and removes exactly that task: afterwards no stored
    task has its identifier, every other task is still stored, the
    collection is one task shorter, and a second delete answers 404 and
    changes nothing. *)
Theorem delete_by_owner (tasks : list Task.Document) (t : Task.Document) :
  NoDup (map Task._id tasks) ->
  In t tasks ->
  let tasks' := snd (TaskRoutes.remove tasks (Task.userId t) (Task._id t)) in
  fst (TaskRoutes.remove tasks (Task.userId t) (Task._id t))
  = mkResponse 200 (JObj [("success", JBool true)]) /\
  (forall x, In x tasks' <-> In x tasks /\ Task._id x <> Task._id t) /\
  S (length tasks') = length tasks /\
  TaskRoutes.remove tasks' (Task.userId t) (Task._id t)
  = (message 404 "Task not found", tasks').
Proof.
  intros Hnd Hin tasks'. subst tasks'.
  assert (Hrem : TaskRoutes.remove tasks (Task.userId t) (Task._id t)
                 = (mkResponse 200 (JObj [("success", JBool true)]),
                    without (Task._id t) tasks)).
  { unfold TaskRoutes.remove. now rewrite (findOneAndDelete_owned tasks t Hnd Hin). }
  rewrite Hrem. cbn [fst snd].
  split; [reflexivity|]. split; [intros x; apply In_without|]. split.
  - now apply without_length.
  - unfold TaskRoutes.remove. now rewrite findOneAndDelete_none by apply without_not_targeted.
Qed.

Lemma delete_by_owner_witness :
  let t1 := Task.mk "t1" "Pay rent" "" "todo" "high" "alice" 10 10 in
  let t2 := Task.mk "t2" "Buy milk" "" "todo" "medium" "bob" 20 20 in
  let tasks' := snd (TaskRoutes.remove [t1; t2] (Task.userId t2) (Task._id t2)) in
  fst (TaskRoutes.remove [t1; t2] (Task.userId t2) (Task._id t2))
  = mkResponse 200 (JObj [("success", JBool true)]) /\
  (forall x, In x tasks' <-> In x [t1; t2] /\ Task._id x <> Task._id t2) /\
  S (length tasks') = length [t1; t2] /\
  TaskRoutes.remove tasks' (Task.userId t2) (Task._id t2)
  = (message 404 "Task not found", tasks').
Proof.
  intros t1 t2.
  apply (delete_by_owner [t1; t2] t2).
  - apply (bool_decide_unpack _). vm_compute. exact I.
  - simpl. auto.
Defined.

(** ** Listing *)

Lemma newer_first_transitive : Transitive Task.newer_first.
Proof. intros a b c. unfold Task.newer_first. lia. Qed.

Lemma newer_first_total : Total Task.newer_first.
Proof. intros a b. unfold Task.newer_first. lia. Qed.

(** X12. Every 200 answer of the list route is the projection of a list
    of stored tasks of the caller in which no task comes before a task
    created later, whatever the filters and the search text. The list holds
    each selected task as often as it is stored. *)
Theorem list_most_recent_first `{Regex.Engine} (tasks : list Task.Document)
    (user_id : string) (errors : list string) (q status0 priority : option string)
    (response : Response) :
  TaskRoutes.get tasks user_id errors q status0 priority = Respond response ->
  status response = 200 ->
  exists found test,
    body response = JArr (map TaskRoutes.task_json found) /\
    most_recent_first found /\
    Permutation found
      (List.filter (Task.selects (TaskRoutes.get_query user_id q status0 priority) test)
                   tasks) /\
    (forall t, In t found -> In t tasks /\ Task.userId t = user_id).
Proof.
  unfold TaskRoutes.get. destruct errors; [|intros [= <-]; discriminate].
  destruct (Task.exec tasks _) as [found|] eqn:Hexec; [|discriminate].
  intros [= <-] _. destruct (exec_Ok _ _ _ Hexec) as (test & Htest & Hperm).
  exists found, test. split; [reflexivity|]. split; [|split; [exact Hperm|]].
  - unfold Task.exec in Hexec. rewrite Htest in Hexec. cbn in Hexec.
    injection Hexec as <-.
    apply (@StronglySorted_merge_sort _ Task.newer_first _
             newer_first_transitive newer_first_total).
  - intros t Ht. apply (Permutation_in _ Hperm), filter_In in Ht.
    destruct Ht as [Ht Hsel]. split; [exact Ht|]. now apply selects_owner in Hsel.
Qed.

Lemma list_most_recent_first_witness :
  let a := Task.mk "t1" "Report A" "" "todo" "medium" "alice" 10 10 in
  let b := Task.mk "t2" "Report B" "urgent" "todo" "medium" "alice" 20 20 in
  let c := Task.mk "t3" "Buy milk" "" "todo" "medium" "bob" 30 30 in
  exists found test,
    body (mkResponse 200 (JArr [TaskRoutes.task_json b; TaskRoutes.task_json a]))
    = JArr (map TaskRoutes.task_json found) /\
    most_recent_first found /\
    Permutation found
      (List.filter (Task.selects (TaskRoutes.get_query "alice" (Some "report") None None)
                                 test)
                   [a; b; c]) /\
    (forall t, In t found -> In t [a; b; c] /\ Task.userId t = "alice").
Proof.
  intros a b c.
  apply (@list_most_recent_first Reference.engine [a; b; c] "alice" []
           (Some "report") None None).
  - vm_compute. reflexivity.
  - reflexivity.
Defined.

(** ** Invariants of the task collection *)

Lemma findOneAndUpdate_frame (tasks : list Task.Document) (id owner : string)
    (upd : Task.Updates) (now : Z) :
  let tasks' := snd (Task.findOneAndUpdate tasks id owner upd now) in
  map Task._id tasks' = map Task._id tasks /\
  map Task.userId tasks' = map Task.userId tasks /\
  map Task.createdAt tasks' = map Task.createdAt tasks.
Proof.
  induction tasks as [|t tasks IH]; simpl; [auto|].
  destruct (Task.targets id owner t); [simpl; auto|].
  destruct (Task.findOneAndUpdate tasks id owner upd now) as [found rest].
  simpl in *. destruct IH as (-> & -> & ->). auto.
Qed.

Lemma findOneAndDelete_ids (tasks : list Task.Document) (id owner : string) :
  NoDup (map Task._id tasks) ->
  NoDup (map Task._id (snd (Task.findOneAndDelete tasks id owner))) /\
  forall x, In x (snd (Task.findOneAndDelete tasks id owner)) -> In x tasks.
Proof.
  induction tasks as [|t tasks IH]; simpl; intros Hnd; [auto|].
  apply NoDup_cons in Hnd. destruct Hnd as [Ht Hnd].
  destruct (Task.targets id owner t); [simpl; auto|].
  destruct (Task.findOneAndDelete tasks id owner) as [found rest].
  simpl in *. destruct (IH Hnd) as [Hrest Hsub]. split.
  - apply NoDup_cons. split; [|exact Hrest].
    rewrite list_elem_of_In, in_map_iff. intros (x & Hx & Hin).
    apply Ht. rewrite list_elem_of_In, <- Hx. apply in_map. auto.
  - intros x [<-|Hx]; auto.
Qed.

(** X13. The task routes keep identifiers unique: from a collection in
    which no two tasks share an identifier, create, update and delete lead,
    whatever the request, to a collection in which no two tasks share an
    identifier. *)
Theorem task_routes_keep_unique_ids (tasks : list Task.Document) :
  NoDup (map Task._id tasks) ->
  (forall fresh now user_id errors title description status0 priority,
     NoDup (map Task._id
              (snd (TaskRoutes.post tasks fresh now user_id errors title description
                      status0 priority)))) /\
  (forall now user_id errors id request,
     NoDup (map Task._id (snd (TaskRoutes.put tasks now user_id errors id request)))) /\
  (forall user_id id,
     NoDup (map Task._id (snd (TaskRoutes.remove tasks user_id id)))).
Proof.
  intros Hnd. repeat split.
  - intros fresh now user_id errors title description status0 priority.
    unfold TaskRoutes.post, Task.create. destruct errors; [|exact Hnd].
    destruct (negb (Task.valid _)); [exact Hnd|].
    destruct (existsb _ tasks) eqn:Hdup; [exact Hnd|]. cbn [snd].
    apply NoDup_map_snoc; [exact Hnd|]. intros y Hy.
    rewrite existsb_false in Hdup. now apply Hdup, bool_decide_eq_false_1 in Hy.
  - intros now user_id errors id request. unfold TaskRoutes.put.
    destruct errors; [|exact Hnd].
    pose proof (findOneAndUpdate_frame tasks id user_id
                  (Task.mkUpdates (TaskRoutes.title request) (TaskRoutes.description request)
                                  (TaskRoutes.status request) (TaskRoutes.priority request))
                  now) as (Hids & _).
    destruct (Task.findOneAndUpdate _ _ _ _ _) as [[t|] ts]; cbn [snd] in *;
      now rewrite Hids.
  - intros user_id id. unfold TaskRoutes.remove.
    pose proof (findOneAndDelete_ids tasks id user_id Hnd) as [Hids _].
    destruct (Task.findOneAndDelete _ _ _) as [[t|] ts]; exact Hids.
Qed.

Lemma task_routes_keep_unique_ids_witness :
  let t1 := Task.mk "t1" "Pay rent" "" "todo" "high" "alice" 10 10 in
  let t2 := Task.mk "t2" "Buy milk" "" "todo" "medium" "bob" 20 20 in
  (forall fresh now user_id errors title description status0 priority,
     NoDup (map Task._id
              (snd (TaskRoutes.post [t1; t2] fresh now user_id errors title description
                      status0 priority)))) /\
  (forall now user_id errors id request,
     NoDup (map Task._id (snd (TaskRoutes.put [t1; t2] now user_id errors id request)))) /\
  (forall user_id id,
     NoDup (map Task._id (snd (TaskRoutes.remove [t1; t2] user_id id)))).
Proof.
  intros t1 t2.
  apply (task_routes_keep_unique_ids [t1; t2]).
  apply (bool_decide_unpack _). vm_compute. exact I.
Defined.

(** X14. An update never moves a task to another owner and never
    changes an identifier or a creation time: whatever the request and
    whoever sends it, the identifiers, the owners and the creation times of
    the stored tasks are, position by position, what they were. *)
Theorem update_keeps_identity (tasks : list Task.Document) (now : Z)
    (user_id : string) (errors : list string) (id : string) (request : TaskRoutes.Body) :
  let tasks' := snd (TaskRoutes.put tasks now user_id errors id request) in
  map Task._id tasks' = map Task._id tasks /\
  map Task.userId tasks' = map Task.userId tasks /\
  map Task.createdAt tasks' = map Task.createdAt tasks.
Proof.
  intros tasks'. subst tasks'. unfold TaskRoutes.put. destruct errors; [|auto].
  pose proof (findOneAndUpdate_frame tasks id user_id
                (Task.mkUpdates (TaskRoutes.title request) (TaskRoutes.description request)
                                (TaskRoutes.status request) (TaskRoutes.priority request))
                now) as Hframe.
  destruct (Task.findOneAndUpdate _ _ _ _ _) as [[t|] ts]; exact Hframe.
Qed.

(** ** The Auth Gate in front of the task routes *)

Lemma auth_replies (env : Env) `{Jwt.Codec} (now : Z) (authorization : option string)
    (r : Response) :
  fst (Auth.auth env now authorization) = Auth.Reply r ->
  r = message 401 "Unauthorized" \/ r = message 500 "Server config error".
Proof.
  unfold Auth.auth.
  destruct (negb (JS.truthy (Auth.bearer authorization))); [intros [= <-]; now left|].
  destruct (negb (JS.truthy _)); [intros [= <-]; now right|].
  destruct (Jwt.verify _ _ _); [discriminate|intros [= <-]; now left].
Qed.

(** X15. A request that the Auth Gate does not resolve to a principal
    reaches no task handler: each of the four task routes answers it with
    the Auth Gate's own answer, 401 Unauthorized or the 500
    server-configuration error, and the collection stays as it was; in
    particular nothing is listed and nothing is created. *)
Theorem unauthenticated_requests_rejected `{Jwt.Codec} `{Regex.Engine} (env : Env)
    (now : Z) (authorization : option string) (tasks : list Task.Document) :
  (forall user_id, fst (Auth.auth env now authorization) <> Auth.Next user_id) ->
  exists r,
    (r = message 401 "Unauthorized" \/ r = message 500 "Server config error") /\
    (forall errors q status0 priority,
       Router.tasks_get env now authorization tasks errors q status0 priority
       = Respond r) /\
    (forall fresh errors title description status0 priority,
       Router.tasks_post env now authorization tasks fresh errors title description
         status0 priority
       = (Respond r, tasks)) /\
    (forall errors id request,
       Router.tasks_put env now authorization tasks errors id request = (r, tasks)) /\
    (forall id, Router.tasks_delete env now authorization tasks id = (r, tasks)).
Proof.
  intros Hnone.
  unfold Router.tasks_get, Router.tasks_post, Router.tasks_put, Router.tasks_delete,
    Auth.guarded.
  destruct (fst (Auth.auth env now authorization)) as [r|user_id] eqn:Hauth.
  - exists r. split; [now apply (auth_replies env now authorization)|].
    repeat split.
  - now destruct (Hnone user_id).
Qed.

Lemma unauthenticated_requests_rejected_witness :
  let t1 := Task.mk "t1" "Pay rent" "" "todo" "high" "alice" 10 10 in
  let env : Env := {[ "JWT_SECRET" := "s3cret" ]} in
  exists r,
    (r = message 401 "Unauthorized" \/ r = message 500 "Server config error") /\
    (forall errors q status0 priority,
       @Router.tasks_get Reference.codec Reference.engine env 7 (Some "Basic abc") [t1]
         errors q status0 priority
       = Respond r) /\
    (forall fresh errors title description status0 priority,
       @Router.tasks_post Reference.codec env 7 (Some "Basic abc") [t1] fresh errors
         title description status0 priority
       = (Respond r, [t1])) /\
    (forall errors id request,
       @Router.tasks_put Reference.codec env 7 (Some "Basic abc") [t1] errors id request
       = (r, [t1])) /\
    (forall id,
       @Router.tasks_delete Reference.codec env 7 (Some "Basic abc") [t1] id = (r, [t1])).
Proof.
  intros t1 env.
  apply (@unauthenticated_requests_rejected Reference.codec Reference.engine env 7
           (Some "Basic abc") [t1]).
  intros user_id. vm_compute. discriminate.
Defined.

Lemma only_owner_mutates_witness :
  let t1 := Task.mk "t1" "Pay rent" "" "todo" "high" "alice" 10 10 in
  let env : Env := {[ "JWT_SECRET" := "s3cret" ]} in
  let body := TaskRoutes.mkBody (Some "Done") None None None in
  snd (@Router.tasks_put Reference.codec env 7 None [t1] [] (Task._id t1) body) = [t1] /\
  snd (@Router.tasks_delete Reference.codec env 7 None [t1] (Task._id t1)) = [t1].
Proof.
  intros t1 env body.
  apply (@only_owner_mutates Reference.codec env 7 None [t1] t1 [] body).
  - apply (bool_decide_unpack _). vm_compute. exact I.
  - simpl. auto.
  - vm_compute. discriminate.
Defined.

(** The Auth Gate resolves a token that login has just issued to the user
    who logged in. *)
Lemma login_token_auth `{Bcrypt} `{Jwt.Codec} (env : Env)
    (users : list User.Document) (now0 now1 : Z) (email password token : string)
    (user_json : json) :
  Jwt.codec_contract ->
  AuthRoutes.login env users now0 [] email password
  = Respond (mkResponse 200 (JObj [("token", JStr token); ("user", user_json)])) ->
  Jwt.clock now1 < Jwt.clock now0 + Jwt.expiresIn_24h ->
  exists user,
    User.findOne_email users email = Some user /\
    fst (Auth.auth env now1 (Some ("Bearer " ++ token)%string))
    = Auth.Next (User._id user).
Proof.
  intros Hcodec. unfold AuthRoutes.login.
  destruct (User.findOne_email users email) as [user|]; [|discriminate].
  destruct (negb (User.comparePassword user password)); [discriminate|].
  destruct (Jwt.sign (User._id user) (JS.or_empty (env !! "JWT_SECRET")) now0)
    as [tok|] eqn:Hsign; [|discriminate].
  intros [= <- _] Hclock. exists user. split; [reflexivity|].
  destruct (sign_nonempty Hcodec _ _ _ _ Hsign) as [Htok Hsec].
  unfold Auth.auth. rewrite bearer_of_header.
  apply truthy_true in Htok, Hsec. rewrite Htok, Hsec. cbn.
  now rewrite (verify_sign_valid Hcodec _ _ _ _ _ Hsign Hclock).
Qed.

(** X17. With the token that login answered, and until it expires, the
    four task routes run their handlers as the user who logged in: each
    route does exactly what its handler does for that user's identifier. *)
Theorem login_then_task_routes `{Bcrypt} `{Jwt.Codec} `{Regex.Engine} (env : Env)
    (users : list User.Document) (now0 now1 : Z) (email password token : string)
    (user_json : json) (tasks : list Task.Document) :
  let authorization := Some ("Bearer " ++ token)%string in
  Jwt.codec_contract ->
  AuthRoutes.login env users now0 [] email password
  = Respond (mkResponse 200 (JObj [("token", JStr token); ("user", user_json)])) ->
  Jwt.clock now1 < Jwt.clock now0 + 24 * 60 * 60 ->
  exists user,
    User.findOne_email users email = Some user /\
    (forall errors q status0 priority,
       Router.tasks_get env now1 authorization tasks errors q status0 priority
       = TaskRoutes.get tasks (User._id user) errors q status0 priority) /\
    (forall fresh errors title description status0 priority,
       Router.tasks_post env now1 authorization tasks fresh errors title description
         status0 priority
       = TaskRoutes.post tasks fresh now1 (User._id user) errors title description
           status0 priority) /\
    (forall errors id request,
       Router.tasks_put env now1 authorization tasks errors id request
       = TaskRoutes.put tasks now1 (User._id user) errors id request) /\
    (forall id,
       Router.tasks_delete env now1 authorization tasks id
       = TaskRoutes.remove tasks (User._id user) id).
Proof.
  intros authorization Hcodec Hlogin Hclock.
  destruct (login_token_auth env users now0 now1 email password token user_json
              Hcodec Hlogin Hclock) as (user & Hfind & Hauth).
  exists user. split; [exact Hfind|].
  unfold Router.tasks_get, Router.tasks_post, Router.tasks_put, Router.tasks_delete,
    Auth.guarded.
  fold authorization in Hauth. rewrite Hauth. repeat split.
Qed.

Lemma login_then_task_routes_witness :
  let env : Env := {[ "JWT_SECRET" := "s3cret" ]} in
  let alice := User.mk "64f0c0ffee" "alice" "alice@x.com" "secret1$salt" 5 in
  let t1 := Task.mk "t1" "Pay rent" "" "todo" "high" "64f0c0ffee" 10 10 in
  let token :=
    @Jwt.encode Reference.codec
      (Jwt.mkSigned (Jwt.mkPayload "64f0c0ffee" 1 (Some 86401)) "s3cret") in
  let authorization := Some ("Bearer " ++ token)%string in
  exists user,
    User.findOne_email [alice] "alice@x.com" = Some user /\
    (forall errors q status0 priority,
       @Router.tasks_get Reference.codec Reference.engine env 3600000 authorization [t1]
         errors q status0 priority
       = @TaskRoutes.get Reference.engine [t1] (User._id user) errors q status0 priority) /\
    (forall fresh errors title description status0 priority,
       @Router.tasks_post Reference.codec env 3600000 authorization [t1] fresh errors
         title description status0 priority
       = TaskRoutes.post [t1] fresh 3600000 (User._id user) errors title description
           status0 priority) /\
    (forall errors id request,
       @Router.tasks_put Reference.codec env 3600000 authorization [t1] errors id request
       = TaskRoutes.put [t1] 3600000 (User._id user) errors id request) /\
    (forall id,
       @Router.tasks_delete Reference.codec env 3600000 authorization [t1] id
       = TaskRoutes.remove [t1] (User._id user) id).
Proof.
  intros env alice t1 token authorization.
  apply (@login_then_task_routes Reference.bcrypt Reference.codec Reference.engine env
           [alice] 1500 3600000 "alice@x.com" "secret1" token
           (JObj [("id", JStr "64f0c0ffee"); ("username", JStr "alice");
                  ("email", JStr "alice@x.com")]) [t1]).
  - exact reference_codec_contract.
  - vm_compute. reflexivity.
  - vm_compute. reflexivity.
Defined.

(** ** Schema validation runs on create only *)

(** X18. A title that is empty once trimmed is refused on create and
    accepted on update. Creating a task with it lets a validation exception
    escape and stores nothing, while the owner's update with it answers 200
    and leaves the task stored with an empty title, which the schema's own
    validator rejects. *)
Theorem blank_title_create_vs_update (tasks : list Task.Document) (t : Task.Document)
    (fresh user_id blank : string) (now : Z) (description status0 priority : option string) :
  NoDup (map Task._id tasks) ->
  In t tasks ->
  JS.trim blank = "" ->
  TaskRoutes.post tasks fresh now user_id [] blank description status0 priority
  = (Throw "ValidationError", tasks) /\
  exists t' tasks',
    TaskRoutes.put tasks now (Task.userId t) [] (Task._id t)
      (TaskRoutes.mkBody (Some blank) None None None)
    = (mkResponse 200 (TaskRoutes.task_json t'), tasks') /\
    In t' tasks' /\
    Task._id t' = Task._id t /\
    Task.title t' = "" /\
    Task.valid t' = false.
Proof.
  intros Hnd Hin Hblank. split.
  - unfold TaskRoutes.post, Task.create, Task.valid, Task.set_title.
    cbn [Task.title]. rewrite Hblank. reflexivity.
  - pose (upd := Task.mkUpdates (Some blank) None None None).
    destruct (findOneAndUpdate_owned tasks t upd now Hnd Hin)
      as (before & after & Htasks & Hupd).
    exists (Task.apply_updates upd now t), (before ++ Task.apply_updates upd now t :: after)%list.
    split; [unfold TaskRoutes.put; cbn; fold upd; now rewrite Hupd|].
    split; [apply in_app_iff; right; simpl; auto|].
    split; [reflexivity|].
    assert (Htitle : Task.title (Task.apply_updates upd now t) = "").
    { cbn. exact Hblank. }
    split; [exact Htitle|]. unfold Task.valid. now rewrite Htitle.
Qed.

Lemma blank_title_create_vs_update_witness :
  let t1 := Task.mk "t1" "Pay rent" "" "todo" "high" "alice" 10 10 in
  TaskRoutes.post [t1] "t2" 20 "alice" [] "  " None None None
  = (Throw "ValidationError", [t1]) /\
  exists t' tasks',
    TaskRoutes.put [t1] 20 (Task.userId t1) [] (Task._id t1)
      (TaskRoutes.mkBody (Some "  ") None None None)
    = (mkResponse 200 (TaskRoutes.task_json t'), tasks') /\
    In t' tasks' /\
    Task._id t' = Task._id t1 /\
    Task.title t' = "" /\
    Task.valid t' = false.
Proof.
  intros t1.
  apply (blank_title_create_vs_update [t1] t1 "t2" "alice" "  " 20 None None None).
  - apply (bool_decide_unpack _). vm_compute. exact I.
  - simpl. auto.
  - reflexivity.
Defined.

(** ** Create, then list *)

Lemma filter_snoc_false {A : Type} (f : A -> bool) (l : list A) (x : A) :
  f x = false -> List.filter f (l ++ [x])%list = List.filter f l.
Proof.
  intros Hx. rewrite List.filter_app. simpl. rewrite Hx. apply app_nil_r.
Qed.

(** X19. A task that has just been created shows in its owner's list,
    and for every other principal every list answer is what it was before
    the creation. *)
Theorem create_then_list `{Regex.Engine} (tasks tasks' : list Task.Document)
    (fresh user_id title : string) (now : Z) (description status0 priority : option string)
    (body : json) :
  TaskRoutes.post tasks fresh now user_id [] title description status0 priority
  = (Respond (mkResponse 201 body), tasks') ->
  (exists found,
     TaskRoutes.get tasks' user_id [] None None None
     = Respond (mkResponse 200 (JArr (map TaskRoutes.task_json found))) /\
     In body (map TaskRoutes.task_json found)) /\
  (forall other errors q status1 priority1,
     other <> user_id ->
     TaskRoutes.get tasks' other errors q status1 priority1
     = TaskRoutes.get tasks other errors q status1 priority1).
Proof.
  unfold TaskRoutes.post, Task.create.
  destruct (negb (Task.valid _)); [discriminate|].
  destruct (existsb _ tasks); [discriminate|].
  intros [= <- <-]. split.
  - unfold TaskRoutes.get.
    destruct (Task.exec _ _) as [found|] eqn:Hexec; [|discriminate].
    exists found. split; [reflexivity|]. apply in_map.
    destruct (exec_In _ _ _ Hexec) as (test & Htest & Hin).
    apply Hin. split; [apply in_app_iff; right; simpl; auto|].
    injection Htest as <-. unfold Task.selects. cbn.
    now rewrite bool_decide_eq_true_2.
  - intros other errors q status1 priority1 Hother.
    unfold TaskRoutes.get, Task.exec. destruct errors; [|reflexivity].
    destruct (Task.title_test _) as [test|]; [|reflexivity].
    rewrite filter_snoc_false; [reflexivity|].
    unfold Task.selects. cbn. rewrite bool_decide_eq_false_2; [reflexivity|congruence].
Qed.

Lemma create_then_list_witness :
  let t1 := Task.mk "t1" "Pay rent" "" "todo" "high" "bob" 10 10 in
  let milk := Task.mk "t2" "Buy milk" "" "todo" "medium" "alice" 20 20 in
  (exists found,
     @TaskRoutes.get Reference.engine [t1; milk] "alice" [] None None None
     = Respond (mkResponse 200 (JArr (map TaskRoutes.task_json found))) /\
     In (TaskRoutes.task_json milk) (map TaskRoutes.task_json found)) /\
  (forall other errors q status1 priority1,
     other <> "alice" ->
     @TaskRoutes.get Reference.engine [t1; milk] other errors q status1 priority1
     = @TaskRoutes.get Reference.engine [t1] other errors q status1 priority1).
Proof.
  intros t1 milk.
  apply (@create_then_list Reference.engine [t1] [t1; milk] "t2" "alice" " Buy milk"
           20 None None None (TaskRoutes.task_json milk)).
  vm_compute. reflexivity.
Defined.

(** ** The token window in milliseconds *)

Lemma token_window_milliseconds_witness :
  let token :=
    @Jwt.encode Reference.codec
      (Jwt.mkSigned (Jwt.mkPayload "64f0c0ffee" 1 (Some 86401)) "s3cret") in
  (86399999 - 1500 <= 86399000 ->
   exists payload,
     @Jwt.verify Reference.codec token "s3cret" 86399999 = Some payload /\
     Jwt.id payload = "64f0c0ffee") /\
  (86400000 <= 86399999 - 1500 ->
   @Jwt.verify Reference.codec token "s3cret" 86399999 = None).
Proof.
  intros token.
  apply (@token_window_milliseconds Reference.codec "64f0c0ffee" "s3cret" token
           1500 86399999).
  - exact reference_codec_contract.
  - vm_compute. reflexivity.
Defined.

(** ** Start-up *)


(** ** Reading the authorization header *)

(** X22. The middleware reads a token from the authorization header
    exactly when the header is [Bearer ], with this capitalisation and one
    space, followed by a non-empty token; the token it reads is everything
    after that prefix, and for every other header, or none, it reads the
    empty token. *)
Theorem bearer_reads_exactly (authorization : option string) (token : string) :
  (Auth.bearer authorization = token /\ token <> "" <->
   carries_bearer authorization token) /\
  ((forall t, ~ carries_bearer authorization t) -> Auth.bearer authorization = "").
Proof.
  split; [split|].
  - intros [<- Hne]. now apply bearer_carries.
  - intros Hc. split; [now apply carries_bearer_token|apply Hc].
  - intros Hnone. destruct (Auth.bearer authorization) as [|c s] eqn:Hb; [reflexivity|].
    exfalso. apply (Hnone (String c s)). rewrite <- Hb. apply bearer_carries.
    rewrite Hb. discriminate.
Qed.
